(** * Arduino Buttons Template Library: debounce and gesture classification

    A shallow embedding of the three variants kept in the repository

    - [Template] : [buttonsTemplate.h], the five-flag template class
      [Buttons<NumberOfButtons>];
    - [Single]   : [single/buttonsSingle.h] and [single/buttonsSingle.cpp],
      the one-button class [ButtonSingle];
    - [Old]      : [buttonsTemplateOld.h], the historical two-flag class;

    followed by the properties of the interrupt routine, of the
    read-and-clear accessors and of [begin] / [stop].

    Integers are modelled as [Z] with the wrap-around of their C type
    written out: [uint8_t] values live in [0, 2^8), [unsigned long] and
    [uint32_t] values in [0, 2^32). *)

From Stdlib Require Import ZArith Lia Bool.
From stdpp Require Import base option list.

Local Open Scope Z_scope.

(** ** Machine integers *)

(** Conversion to [uint8_t]. *)
Definition u8 (z : Z) : Z := z mod 2 ^ 8.

(** Conversion to [uint32_t] / [unsigned long]. *)
Definition u32 (z : Z) : Z := z mod 2 ^ 32.

(** [_BV(bit)] is [1 << bit]. *)
Definition _BV (bit : Z) : Z := Z.shiftl 1 bit.

(** The truth value C gives to an integer used as a condition. *)
Definition truthy (z : Z) : bool := negb (z =? 0).

(** [now - then] on two [unsigned long] operands. *)
Definition elapsed (now then_ : Z) : Z := u32 (now - then_).

(** [LOW] as returned by [digitalRead]. *)
Definition LOW : Z := 0.

(** ** Build-time configuration

    [BUTTON_DEBOUNCE_DELAY], [DOUBLE_CLICK_DELAY] and [LONG_RELEASE_DELAY]
    are macros that a sketch may define before including the header.  They
    are periods in milliseconds, compared against an [unsigned long]
    difference, so they are taken in the range of that type. *)
Class Delays := {
  BUTTON_DEBOUNCE_DELAY : Z;
  DOUBLE_CLICK_DELAY : Z;
  LONG_RELEASE_DELAY : Z;
  debounce_range : 0 <= BUTTON_DEBOUNCE_DELAY < 2 ^ 32;
  double_click_range : 0 <= DOUBLE_CLICK_DELAY < 2 ^ 32;
  long_release_range : 0 <= LONG_RELEASE_DELAY < 2 ^ 32
}.

(** The values the header gives when the sketch defines nothing. *)
Definition default_delays : Delays :=
  {| BUTTON_DEBOUNCE_DELAY := 30;
     DOUBLE_CLICK_DELAY := 500;
     LONG_RELEASE_DELAY := 1000;
     debounce_range := ltac:(lia);
     double_click_range := ltac:(lia);
     long_release_range := ltac:(lia) |}.

(** ** The Arduino core, as far as the library calls it

    [digitalPinToInterrupt] maps a pin to an interrupt number;
    [attachInterrupt] returns [void], and whether the core really binds a
    handler to the number it is given is recorded by [binds]. *)
Class Platform := {
  digitalPinToInterrupt : Z -> Z;
  binds : Z -> bool
}.

(** What the outside world answers during one call of a library routine:
    [digitalRead e i p] is the level read from pin [p] in iteration [i] of
    the loop that reads it, [millis e i] the clock read in iteration [i]
    (iteration [0] for a routine that reads the clock once). *)
Record Env := mkEnv {
  digitalRead : nat -> Z -> Z;
  millis : nat -> Z
}.

(** * The template class, [buttonsTemplate.h] *)
Module Template.

(** [struct Button]. *)
Record Button := mkButton {
  pin : Z;
  state : Z;
  lastChangeTime : Z;
  lastClickTime : Z
}.

(** The constructor [Button()]. *)
Definition Button_ctor : Button := mkButton 0 0 0 0.

Definition set_pin (b : Button) (p : Z) : Button :=
  mkButton p (state b) (lastChangeTime b) (lastClickTime b).
Definition set_state (b : Button) (st : Z) : Button :=
  mkButton (pin b) st (lastChangeTime b) (lastClickTime b).
Definition set_lastChangeTime (b : Button) (t : Z) : Button :=
  mkButton (pin b) (state b) t (lastClickTime b).
Definition set_lastClickTime (b : Button) (t : Z) : Button :=
  mkButton (pin b) (state b) (lastChangeTime b) t.

Definition CLEAR_FLAGS : Z := 0.
Definition PRESSED_FLAG : Z := _BV 0.
Definition CLICKED_FLAG : Z := _BV 1.
Definition SHORT_RELEASED_FLAG : Z := _BV 2.
Definition LONG_RELEASED_FLAG : Z := _BV 3.
Definition DOUBLE_CLICKED_FLAG : Z := _BV 4.

(** The static members of [Buttons<NumberOfButtons>], together with the
    two pieces of hardware state its routines write: the interrupt numbers
    [button_ISR] is attached to and the pins put in [INPUT_PULLUP] mode. *)
Record Buttons := mkButtons {
  _buttons : list Button;
  _begun : bool;
  irqs : list Z;
  pullups : list Z
}.

Definition set_buttons (s : Buttons) (bs : list Button) : Buttons :=
  mkButtons bs (_begun s) (irqs s) (pullups s).
Definition set_begun (s : Buttons) (g : bool) : Buttons :=
  mkButtons (_buttons s) g (irqs s) (pullups s).
Definition set_irqs (s : Buttons) (l : list Z) : Buttons :=
  mkButtons (_buttons s) (_begun s) l (pullups s).
Definition set_pullups (s : Buttons) (l : list Z) : Buttons :=
  mkButtons (_buttons s) (_begun s) (irqs s) l.

(** The static storage before any call: every entry built by [Button()],
    [_begun] false. *)
Definition initial (NumberOfButtons : nat) : Buttons :=
  mkButtons (replicate NumberOfButtons Button_ctor) false [] [].

(** *** Accessors

    An index outside the array is undefined behaviour in the source; the
    accessors answer [None] there. *)

(** One entry: [state & FLAG], then [state &= ~FLAG]. *)
Definition test_flag (FLAG : Z) (b : Button) : bool :=
  negb (Z.land (state b) FLAG =? 0).
Definition clear_flag (FLAG : Z) (b : Button) : Button :=
  set_state b (u8 (Z.land (state b) (Z.lnot FLAG))).

Definition clicked (buttonId : nat) (s : Buttons) : option (bool * Buttons) :=
  b ← _buttons s !! buttonId;
  let bClicked := Z.land (state b) CLICKED_FLAG in
  let b' := set_state b (u8 (Z.land (state b) (Z.lnot CLICKED_FLAG))) in
  Some (negb (bClicked =? 0), set_buttons s (<[buttonId := b']> (_buttons s))).

Definition shortReleased (buttonId : nat) (s : Buttons)
  : option (bool * Buttons) :=
  b ← _buttons s !! buttonId;
  let bShortReleased := Z.land (state b) SHORT_RELEASED_FLAG in
  let b' := set_state b (u8 (Z.land (state b) (Z.lnot SHORT_RELEASED_FLAG))) in
  Some (negb (bShortReleased =? 0),
        set_buttons s (<[buttonId := b']> (_buttons s))).

Definition longReleased (buttonId : nat) (s : Buttons)
  : option (bool * Buttons) :=
  b ← _buttons s !! buttonId;
  let blongReleased := Z.land (state b) LONG_RELEASED_FLAG in
  let b' := set_state b (u8 (Z.land (state b) (Z.lnot LONG_RELEASED_FLAG))) in
  Some (negb (blongReleased =? 0),
        set_buttons s (<[buttonId := b']> (_buttons s))).

Definition doubleClicked (buttonId : nat) (s : Buttons)
  : option (bool * Buttons) :=
  b ← _buttons s !! buttonId;
  let bDoubleClicked := Z.land (state b) DOUBLE_CLICKED_FLAG in
  let b' := set_state b (u8 (Z.land (state b) (Z.lnot DOUBLE_CLICKED_FLAG))) in
  Some (negb (bDoubleClicked =? 0),
        set_buttons s (<[buttonId := b']> (_buttons s))).

(** [down] on one entry, and on the array. *)
Definition is_down (b : Button) : bool :=
  negb (Z.land (state b) PRESSED_FLAG =? 0).

Definition down (buttonId : nat) (s : Buttons) : option bool :=
  b ← _buttons s !! buttonId; Some (is_down b).

Definition up (buttonId : nat) (s : Buttons) : option bool :=
  d ← down buttonId s; Some (negb d).

Definition numberOfButtons (NumberOfButtons : nat) : nat := NumberOfButtons.

(** [polledDown]: [digitalRead(pin) == LOW], given what [digitalRead]
    answered. *)
Definition polledDown (level : Z) : bool := level =? LOW.

(** *** [stop] *)

(** [detachInterrupt(irq)]. *)
Definition detachInterrupt (irq : Z) (l : list Z) : list Z :=
  filter (λ x, x ≠ irq) l.

Fixpoint stop_loop `{Platform} (i n : nat) (s : Buttons) : Buttons :=
  match n with
  | O => s
  | S n' =>
      let s' :=
        match _buttons s !! i with
        | Some b =>
            set_irqs s (detachInterrupt (digitalPinToInterrupt (pin b)) (irqs s))
        | None => s
        end in
      stop_loop (S i) n' s'
  end.

Definition stop `{Platform} (NumberOfButtons : nat) (s : Buttons) : Buttons :=
  if negb (_begun s) then s
  else set_begun (stop_loop 0 NumberOfButtons s) false.

(** *** [button_ISR] *)

(** The body of the loop for one entry, once [readState] is known. *)
Definition update `{Delays} (now : Z) (readState : bool) (b : Button) : Button :=
  let buttonState := is_down b in
  if negb (eqb readState buttonState) then
    let b1 :=
      if BUTTON_DEBOUNCE_DELAY <? elapsed now (lastChangeTime b) then
        if readState then
          let b2 :=
            if DOUBLE_CLICK_DELAY <? elapsed now (lastClickTime b) then
              set_state b (Z.lor PRESSED_FLAG CLICKED_FLAG)
            else
              set_state b (Z.lor PRESSED_FLAG DOUBLE_CLICKED_FLAG) in
          set_lastClickTime b2 now
        else
          let b2 := set_state b (u8 (Z.land (state b) (Z.lnot PRESSED_FLAG))) in
          if LONG_RELEASE_DELAY <? elapsed now (lastClickTime b2) then
            set_state b2 (u8 (Z.lor (state b2) LONG_RELEASED_FLAG))
          else
            set_state b2 (u8 (Z.lor (state b2) SHORT_RELEASED_FLAG))
      else b in
    set_lastChangeTime b1 now
  else b.

Fixpoint button_ISR_loop `{Delays} (e : Env) (now : Z) (i n : nat)
    (bs : list Button) : list Button :=
  match n with
  | O => bs
  | S n' =>
      let bs' :=
        match bs !! i with
        | Some b =>
            <[i := update now (polledDown (digitalRead e i (pin b))) b]> bs
        | None => bs
        end in
      button_ISR_loop e now (S i) n' bs'
  end.

Definition button_ISR `{Delays} (NumberOfButtons : nat) (e : Env) (s : Buttons)
  : Buttons :=
  let now := u32 (millis e 0) in
  set_buttons s (button_ISR_loop e now 0 NumberOfButtons (_buttons s)).

(** *** [begin]

    [buttonPins] is a pointer: [None] is [nullptr], [Some pins] points to
    the array [pins].  Reading [buttonPins[i]] past the end of the array is
    undefined behaviour, for which [begin] answers [None]. *)

Fixpoint begin_pins (buttonPins : list Z) (i n : nat) (s : Buttons)
  : option Buttons :=
  match n with
  | O => Some s
  | S n' =>
      p ← buttonPins !! i;
      let bs :=
        match _buttons s !! i with
        | Some b => <[i := set_pin b p]> (_buttons s)
        | None => _buttons s
        end in
      begin_pins buttonPins (S i) n' (set_pullups (set_buttons s bs) (p :: pullups s))
  end.

(** [attachInterrupt(irq, &button_ISR, CHANGE)]. *)
Definition attachInterrupt `{Platform} (irq : Z) (l : list Z) : list Z :=
  if binds irq then irq :: l else l.

Fixpoint begin_attach `{Platform} (buttonPins : list Z) (i n : nat) (s : Buttons)
  : option Buttons :=
  match n with
  | O => Some s
  | S n' =>
      p ← buttonPins !! i;
      begin_attach buttonPins (S i) n'
        (set_irqs s (attachInterrupt (digitalPinToInterrupt p) (irqs s)))
  end.

Fixpoint begin_init (e : Env) (i n : nat) (bs : list Button) : list Button :=
  match n with
  | O => bs
  | S n' =>
      let bs' :=
        match bs !! i with
        | Some b =>
            let b1 :=
              set_state b (if truthy (digitalRead e i (pin b))
                           then CLEAR_FLAGS else PRESSED_FLAG) in
            let t := u32 (millis e i) in
            <[i := set_lastClickTime (set_lastChangeTime b1 t) t]> bs
        | None => bs
        end in
      begin_init e (S i) n' bs'
  end.

Definition begin `{Platform} (NumberOfButtons : nat) (e : Env)
    (buttonPins : option (list Z)) (s : Buttons) : option (bool * Buttons) :=
  match buttonPins with
  | None => Some (false, s)
  | Some pins =>
      let s0 := if _begun s then stop NumberOfButtons s else s in
      s1 ← begin_pins pins 0 NumberOfButtons s0;
      s2 ← begin_attach pins 0 NumberOfButtons s1;
      let s3 := set_buttons s2 (begin_init e 0 NumberOfButtons (_buttons s2)) in
      Some (true, set_begun s3 true)
  end.

(** *** Vocabulary for the properties of [button_ISR] *)

(** The two tests that guard the classification in [button_ISR]: the sample
    differs from the stored level, and more than the debounce delay passed
    since [lastChangeTime]. *)
Definition accepts `{Delays} (now : Z) (readState : bool) (b : Button) : bool :=
  negb (eqb readState (is_down b))
  && (BUTTON_DEBOUNCE_DELAY <? elapsed now (lastChangeTime b)).

(** A burst of flips of the raw level: the level was [raw] before the
    burst, it flips at each time of [ts], and the routine runs at each
    flip. *)
Fixpoint run_flips `{Delays} (raw : bool) (ts : list Z) (b : Button) : Button :=
  match ts with
  | [] => b
  | t :: ts' => run_flips (negb raw) ts' (update t (negb raw) b)
  end.

(** Every flip of the burst comes strictly within the debounce delay of
    the change recorded last. *)
Fixpoint bouncing `{Delays} (raw : bool) (ts : list Z) (b : Button) : Prop :=
  match ts with
  | [] => True
  | t :: ts' =>
      elapsed t (lastChangeTime b) < BUTTON_DEBOUNCE_DELAY
      /\ bouncing (negb raw) ts' (update t (negb raw) b)
  end.

(** The time of the last flip of the burst that left the raw level
    different from [confirmed]; [dflt] when there is none. *)
Fixpoint last_pending (confirmed raw : bool) (ts : list Z) (dflt : Z) : Z :=
  match ts with
  | [] => dflt
  | t :: ts' =>
      last_pending confirmed (negb raw) ts'
        (if eqb (negb raw) confirmed then dflt else t)
  end.

(** The raw level after a burst of [n] flips. *)
Fixpoint level_after (raw : bool) (n : nat) : bool :=
  match n with
  | O => raw
  | S n' => level_after (negb raw) n'
  end.

(** The four gestures and their flags. *)
Inductive Gesture := Clicked | ShortReleased | LongReleased | DoubleClicked.

Definition flag_of (g : Gesture) : Z :=
  match g with
  | Clicked => CLICKED_FLAG
  | ShortReleased => SHORT_RELEASED_FLAG
  | LongReleased => LONG_RELEASED_FLAG
  | DoubleClicked => DOUBLE_CLICKED_FLAG
  end.

#[global] Instance Gesture_eq_dec : EqDecision Gesture.
Proof. solve_decision. Defined.

(** What can happen to one entry: the main loop consumes a gesture, or the
    interrupt routine runs with a sample. *)
Inductive Event :=
  | Take (g : Gesture)
  | Sample (now : Z) (readState : bool).

Definition step `{Delays} (ev : Event) (b : Button) : Button :=
  match ev with
  | Take g => clear_flag (flag_of g) b
  | Sample now readState => update now readState b
  end.

Fixpoint run `{Delays} (evs : list Event) (b : Button) : Button :=
  match evs with
  | [] => b
  | ev :: evs' => run evs' (step ev b)
  end.

(** No sample of [evs] is accepted as a transition. *)
Fixpoint quiet `{Delays} (evs : list Event) (b : Button) : bool :=
  match evs with
  | [] => true
  | ev :: evs' =>
      match ev with
      | Take _ => true
      | Sample now readState => negb (accepts now readState b)
      end && quiet evs' (step ev b)
  end.

(** What holds of an entry from the press accepted at [t] until the next
    accepted transition. *)
Definition held (t : Z) (b : Button) : Prop :=
  is_down b = true
  /\ lastClickTime b = t
  /\ test_flag SHORT_RELEASED_FLAG b = false
  /\ test_flag LONG_RELEASED_FLAG b = false.

(** The accessor that consumes a gesture. *)
Definition accessor_of (g : Gesture)
  : nat -> Buttons -> option (bool * Buttons) :=
  match g with
  | Clicked => clicked
  | ShortReleased => shortReleased
  | LongReleased => longReleased
  | DoubleClicked => doubleClicked
  end.

(** The shape shared by the loops over the array: entry [j] is replaced by
    [f j] of itself, for [j] from [i] to [i + n - 1]. *)
Fixpoint for_each (f : nat -> Button -> Button) (i n : nat) (bs : list Button)
  : list Button :=
  match n with
  | O => bs
  | S n' => for_each f (S i) n' (alter (f i) i bs)
  end.

(** What the last loop of [begin] stores in entry [i]. *)
Definition seeded (e : Env) (i : nat) (p : Z) : Button :=
  mkButton p
    (if truthy (digitalRead e i p) then CLEAR_FLAGS else PRESSED_FLAG)
    (u32 (millis e i)) (u32 (millis e i)).

(** The main loop takes gesture [g1] of button [i], then gesture [g2] of
    button [j]. *)
Definition take_both (g1 : Gesture) (i : nat) (g2 : Gesture) (j : nat)
    (s : Buttons) : option (bool * bool * Buttons) :=
  match accessor_of g1 i s with
  | Some (r1, s1) =>
      match accessor_of g2 j s1 with
      | Some (r2, s2) => Some (r1, r2, s2)
      | None => None
      end
  | None => None
  end.

End Template.

(** * The one-button class, [single/buttonsSingle.h] and [.cpp] *)
Module Single.

(** The data members of [ButtonSingle]. *)
Record ButtonSingle := mkButtonSingle {
  pin : Z;
  state : Z;
  lastChangeTime : Z;
  lastClickTime : Z
}.

Definition set_state (s : ButtonSingle) (st : Z) : ButtonSingle :=
  mkButtonSingle (pin s) st (lastChangeTime s) (lastClickTime s).
Definition set_lastChangeTime (s : ButtonSingle) (t : Z) : ButtonSingle :=
  mkButtonSingle (pin s) (state s) t (lastClickTime s).
Definition set_lastClickTime (s : ButtonSingle) (t : Z) : ButtonSingle :=
  mkButtonSingle (pin s) (state s) (lastChangeTime s) t.

Definition DEBOUNCE_DELAY : Z := 50.
Definition DOUBLE_CLICK_DELAY : Z := 500.
Definition LONG_CLICK_DELAY : Z := 2000.

Definition CLEAR_FLAGS : Z := 0.
Definition PRESSED_FLAG : Z := _BV 0.
Definition CLICKED_FLAG : Z := _BV 1.
Definition RELEASED_FLAG : Z := _BV 2.
Definition LONG_CLICKED_FLAG : Z := _BV 3.
Definition DOUBLE_CLICKED_FLAG : Z := _BV 4.

(** The operator [&&] of C on two integers. *)
Definition logical_and (a b : Z) : bool := truthy a && truthy b.

Definition clicked (s : ButtonSingle) : bool * ButtonSingle :=
  let bClicked := logical_and (state s) CLICKED_FLAG in
  (bClicked, set_state s (u8 (Z.land (state s) (Z.lnot CLICKED_FLAG)))).

Definition released (s : ButtonSingle) : bool * ButtonSingle :=
  let bReleased := logical_and (state s) RELEASED_FLAG in
  (bReleased, set_state s (u8 (Z.land (state s) (Z.lnot RELEASED_FLAG)))).

Definition longClicked (s : ButtonSingle) : bool * ButtonSingle :=
  let blongClicked := logical_and (state s) LONG_CLICKED_FLAG in
  (blongClicked, set_state s (u8 (Z.land (state s) (Z.lnot LONG_CLICKED_FLAG)))).

Definition doubleClicked (s : ButtonSingle) : bool * ButtonSingle :=
  let bDoubleClicked := logical_and (state s) DOUBLE_CLICKED_FLAG in
  (bDoubleClicked,
   set_state s (u8 (Z.land (state s) (Z.lnot DOUBLE_CLICKED_FLAG)))).

Definition down (s : ButtonSingle) : bool :=
  logical_and (state s) PRESSED_FLAG.

Definition up (s : ButtonSingle) : bool := negb (down s).

(** The test that opens [button_Handler]:
    [readState != (state && PRESSED_FLAG)]. *)
Definition pending (readState : bool) (s : ButtonSingle) : bool :=
  negb (eqb readState (logical_and (state s) PRESSED_FLAG)).

Definition button_Handler (e : Env) (s : ButtonSingle) : ButtonSingle :=
  let now := u32 (millis e 0) in
  let readState := negb (truthy (digitalRead e 0 (pin s))) in
  if pending readState s then
    let s1 :=
      if DEBOUNCE_DELAY <? elapsed now (lastChangeTime s) then
        if readState then
          let s2 := set_state s CLEAR_FLAGS in
          let s3 := set_state s2 (Z.lor PRESSED_FLAG CLICKED_FLAG) in
          let s4 :=
            if DOUBLE_CLICK_DELAY <? elapsed now (lastClickTime s3) then
              set_state s3 (u8 (Z.lor (state s3) DOUBLE_CLICKED_FLAG))
            else s3 in
          set_lastClickTime s4 now
        else
          let s2 := set_state s (u8 (Z.land (state s) (Z.lnot PRESSED_FLAG))) in
          let s3 := set_state s2 (u8 (Z.lor (state s2) RELEASED_FLAG)) in
          if LONG_CLICK_DELAY <? elapsed now (lastClickTime s3) then
            set_state s3 (u8 (Z.lor (state s3) LONG_CLICKED_FLAG))
          else s3
      else s in
    set_lastChangeTime s1 now
  else s.

(** *** [begin] and [stop] *)

Definition set_pin (s : ButtonSingle) (p : Z) : ButtonSingle :=
  mkButtonSingle p (state s) (lastChangeTime s) (lastClickTime s).

(** A [ButtonSingle] object with the hardware state its routines write. *)
Record Device := mkDevice {
  button : ButtonSingle;
  irqs : list Z;
  pullups : list Z
}.

Definition polledDown (level : Z) : bool := level =? LOW.

Definition begin `{Platform} (e : Env) (buttonPin : Z) (d : Device) : Device :=
  let b1 := set_pin (button d) buttonPin in
  let pullups' := buttonPin :: pullups d in
  let irq := digitalPinToInterrupt buttonPin in
  let irqs' := if binds irq then irq :: irqs d else irqs d in
  let b2 :=
    set_state b1 (if truthy (digitalRead e 0 (pin b1))
                  then CLEAR_FLAGS else PRESSED_FLAG) in
  let t := u32 (millis e 0) in
  mkDevice (set_lastClickTime (set_lastChangeTime b2 t) t) irqs' pullups'.

Definition stop `{Platform} (d : Device) : Device :=
  mkDevice (button d)
    (filter (λ x, x ≠ digitalPinToInterrupt (pin (button d))) (irqs d))
    (pullups d).

End Single.

(** * The historical class, [buttonsTemplateOld.h] *)
Module Old.

(** [struct Button]. *)
Record Button := mkButton {
  buttonPin : Z;
  currentState : bool;
  changeFlag : bool;
  longClickFlag : bool;
  lastChangeTime : Z
}.

Definition DEBOUNCE_DELAY : Z := 50.

(** The body of the loop of [button_ISR] for one entry.  The routine calls
    [millis()] twice, once in the comparison ([m1]) and once for the store
    ([m2]); the comparison adds the delay to the stored time, in
    [unsigned long]. *)
Definition update (m1 m2 : Z) (readState : bool) (b : Button) : Button :=
  if negb (eqb readState (currentState b)) then
    let b1 :=
      if u32 (lastChangeTime b + DEBOUNCE_DELAY) <? m1 then
        mkButton (buttonPin b) readState true true (lastChangeTime b)
      else b in
    mkButton (buttonPin b1) (currentState b1) (changeFlag b1)
             (longClickFlag b1) m2
  else b.

(** The loop: iteration [i] reads the clock at [2 i] and [2 i + 1]. *)
Fixpoint button_ISR_loop (e : Env) (i n : nat) (bs : list Button)
  : list Button :=
  match n with
  | O => bs
  | S n' =>
      let bs' :=
        match bs !! i with
        | Some b =>
            let readState := negb (truthy (digitalRead e i (buttonPin b))) in
            <[i := update (u32 (millis e (2 * i)%nat))
                          (u32 (millis e (2 * i + 1)%nat)) readState b]> bs
        | None => bs
        end in
      button_ISR_loop e (S i) n' bs'
  end.

Definition button_ISR (NumberOfButtons : nat) (e : Env) (bs : list Button)
  : list Button :=
  button_ISR_loop e 0 NumberOfButtons bs.

(** *** The rest of the old class *)

(** The constructor [Button()]. *)
Definition Button_ctor : Button := mkButton 0 false false false 0.

Definition set_changeFlag (b : Button) (f : bool) : Button :=
  mkButton (buttonPin b) (currentState b) f (longClickFlag b) (lastChangeTime b).
Definition set_longClickFlag (b : Button) (f : bool) : Button :=
  mkButton (buttonPin b) (currentState b) (changeFlag b) f (lastChangeTime b).
Definition set_buttonPin (b : Button) (p : Z) : Button :=
  mkButton p (currentState b) (changeFlag b) (longClickFlag b) (lastChangeTime b).

(** The static members of the old [Buttons<NumberOfButtons>], with the
    interrupt numbers its routine is attached to and the pins in
    [INPUT_PULLUP] mode. *)
Record Buttons := mkButtons {
  _buttonStatus : list Button;
  _begun : bool;
  irqs : list Z;
  pullups : list Z
}.

Definition set_status (s : Buttons) (bs : list Button) : Buttons :=
  mkButtons bs (_begun s) (irqs s) (pullups s).
Definition set_begun (s : Buttons) (g : bool) : Buttons :=
  mkButtons (_buttonStatus s) g (irqs s) (pullups s).
Definition set_irqs (s : Buttons) (l : list Z) : Buttons :=
  mkButtons (_buttonStatus s) (_begun s) l (pullups s).
Definition set_pullups (s : Buttons) (l : list Z) : Buttons :=
  mkButtons (_buttonStatus s) (_begun s) (irqs s) l.

Definition initial (NumberOfButtons : nat) : Buttons :=
  mkButtons (replicate NumberOfButtons Button_ctor) false [] [].

(** Conversion to [uint16_t], the type of the [downTime] parameters. *)
Definition u16 (z : Z) : Z := z mod 2 ^ 16.

(** As in the template class, an index outside the array is undefined
    behaviour, answered by [None]. *)

Definition down (buttonId : nat) (s : Buttons) : option bool :=
  b ← _buttonStatus s !! buttonId; Some (currentState b).

Definition up (buttonId : nat) (s : Buttons) : option bool :=
  d ← down buttonId s; Some (negb d).

(** [changed(buttonId)], the inline overload that only reads. *)
Definition changed (buttonId : nat) (s : Buttons) : option bool :=
  b ← _buttonStatus s !! buttonId; Some (changeFlag b).

(** [changed(buttonId, clearChangeFlag)]:
    [changeFlag &= !clearChangeFlag]. *)
Definition changed_clear (buttonId : nat) (clearChangeFlag : bool) (s : Buttons)
  : option (bool * Buttons) :=
  b ← _buttonStatus s !! buttonId;
  let answer := changeFlag b in
  let b' := set_changeFlag b (changeFlag b && negb clearChangeFlag) in
  Some (answer, set_status s (<[buttonId := b']> (_buttonStatus s))).

Definition clearChangedFlag (buttonId : nat) (s : Buttons) : option Buttons :=
  b ← _buttonStatus s !! buttonId;
  Some (set_status s (<[buttonId := set_changeFlag b false]> (_buttonStatus s))).

(** [clicked(buttonId, clearChangeFlag)]:
    [changed(buttonId, clearChangeFlag) && down(buttonId)]. *)
Definition clicked_clear (buttonId : nat) (clearChangeFlag : bool) (s : Buttons)
  : option (bool * Buttons) :=
  match changed_clear buttonId clearChangeFlag s with
  | Some (true, s1) => d ← down buttonId s1; Some (d, s1)
  | Some (false, s1) => Some (false, s1)
  | None => None
  end.

(** [clicked(buttonId)]. *)
Definition clicked (buttonId : nat) (s : Buttons) : option (bool * Buttons) :=
  bChanged ← changed buttonId s;
  if bChanged : bool then
    d ← down buttonId s;
    if d : bool then s' ← clearChangedFlag buttonId s; Some (bChanged, s')
    else Some (bChanged, s)
  else Some (bChanged, s).

(** [released(buttonId, clearChangeFlag)]:
    [changed(buttonId, clearChangeFlag) && !down(buttonId)]. *)
Definition released_clear (buttonId : nat) (clearChangeFlag : bool) (s : Buttons)
  : option (bool * Buttons) :=
  match changed_clear buttonId clearChangeFlag s with
  | Some (true, s1) => d ← down buttonId s1; Some (negb d, s1)
  | Some (false, s1) => Some (false, s1)
  | None => None
  end.

(** [released(buttonId)]. *)
Definition released (buttonId : nat) (s : Buttons) : option (bool * Buttons) :=
  bChanged ← changed buttonId s;
  c ← changed buttonId s;
  if c : bool then
    d ← down buttonId s;
    if negb d then s' ← clearChangedFlag buttonId s; Some (bChanged, s')
    else Some (bChanged, s)
  else Some (bChanged, s).

(** [delayedDown(buttonId, downTime)]; the clock is read only when the
    button is down. *)
Definition delayedDown (buttonId : nat) (downTime : Z) (e : Env) (s : Buttons)
  : option bool :=
  d ← down buttonId s;
  if d : bool then
    b ← _buttonStatus s !! buttonId;
    Some (u16 downTime <? elapsed (u32 (millis e 0)) (lastChangeTime b))
  else Some false.

(** [longClicked(buttonId, downTime, clearLongClickFlag)]. *)
Definition longClicked (buttonId : nat) (downTime : Z)
    (clearLongClickFlag : bool) (e : Env) (s : Buttons)
  : option (bool * Buttons) :=
  dd ← delayedDown buttonId downTime e s;
  if dd : bool then
    b ← _buttonStatus s !! buttonId;
    let result := longClickFlag b in
    let b' := set_longClickFlag b (longClickFlag b && negb clearLongClickFlag) in
    Some (result, set_status s (<[buttonId := b']> (_buttonStatus s)))
  else Some (false, s).

Definition numberOfButtons (NumberOfButtons : nat) (s : Buttons) : nat :=
  if _begun s then NumberOfButtons else 0%nat.

Definition polledDown (level : Z) : bool := level =? LOW.

Fixpoint clearAllChangeFlags_loop (i n : nat) (bs : list Button) : list Button :=
  match n with
  | O => bs
  | S n' =>
      let bs' :=
        match bs !! i with
        | Some b => <[i := set_changeFlag b false]> bs
        | None => bs
        end in
      clearAllChangeFlags_loop (S i) n' bs'
  end.

Definition clearAllChangeFlags (NumberOfButtons : nat) (s : Buttons) : Buttons :=
  set_status s (clearAllChangeFlags_loop 0 NumberOfButtons (_buttonStatus s)).

Fixpoint stop_loop `{Platform} (i n : nat) (s : Buttons) : Buttons :=
  match n with
  | O => s
  | S n' =>
      let s' :=
        match _buttonStatus s !! i with
        | Some b =>
            set_irqs s
              (filter (λ x, x ≠ digitalPinToInterrupt (buttonPin b)) (irqs s))
        | None => s
        end in
      stop_loop (S i) n' s'
  end.

Definition stop `{Platform} (NumberOfButtons : nat) (s : Buttons) : Buttons :=
  if negb (_begun s) then s
  else set_begun (stop_loop 0 NumberOfButtons s) false.

Fixpoint begin_pins (buttonPins : list Z) (i n : nat) (s : Buttons)
  : option Buttons :=
  match n with
  | O => Some s
  | S n' =>
      p ← buttonPins !! i;
      let bs :=
        match _buttonStatus s !! i with
        | Some b => <[i := set_buttonPin b p]> (_buttonStatus s)
        | None => _buttonStatus s
        end in
      begin_pins buttonPins (S i) n' (set_pullups (set_status s bs) (p :: pullups s))
  end.

Fixpoint begin_attach `{Platform} (buttonPins : list Z) (i n : nat) (s : Buttons)
  : option Buttons :=
  match n with
  | O => Some s
  | S n' =>
      p ← buttonPins !! i;
      let irq := digitalPinToInterrupt p in
      begin_attach buttonPins (S i) n'
        (set_irqs s (if binds irq then irq :: irqs s else irqs s))
  end.

Fixpoint begin_init (e : Env) (i n : nat) (bs : list Button) : list Button :=
  match n with
  | O => bs
  | S n' =>
      let bs' :=
        match bs !! i with
        | Some b =>
            <[i := mkButton (buttonPin b)
                     (negb (truthy (digitalRead e i (buttonPin b))))
                     false false (u32 (millis e i))]> bs
        | None => bs
        end in
      begin_init e (S i) n' bs'
  end.

Definition begin `{Platform} (NumberOfButtons : nat) (e : Env)
    (buttonPins : option (list Z)) (s : Buttons) : option (bool * Buttons) :=
  match buttonPins with
  | None => Some (false, s)
  | Some pins =>
      let s0 := if _begun s then stop NumberOfButtons s else s in
      s1 ← begin_pins pins 0 NumberOfButtons s0;
      s2 ← begin_attach pins 0 NumberOfButtons s1;
      let s3 :=
        set_status s2 (begin_init e 0 NumberOfButtons (_buttonStatus s2)) in
      Some (true, set_begun s3 true)
  end.

(** [button_ISR] on the static members. *)
Definition button_ISR_class (NumberOfButtons : nat) (e : Env) (s : Buttons)
  : Buttons :=
  set_status s (button_ISR NumberOfButtons e (_buttonStatus s)).

End Old.

(** * The loop shape of the array routines

    Entry [j] of the array is replaced by [f j] of itself, for [j] from [i]
    to [i + n - 1]. *)
Fixpoint foreach {A : Type} (f : nat -> A -> A) (i n : nat) (l : list A)
  : list A :=
  match n with
  | O => l
  | S n' => foreach f (S i) n' (alter (f i) i l)
  end.

(** An old class that was begun on pins 2 and 3; the button on pin 2 is
    down and its change has not been read. *)
Definition old_stale : Old.Buttons :=
  Old.mkButtons
    [Old.mkButton 2 true true true 100; Old.mkButton 3 false true true 200]
    true [1; 0] [3; 2].

(** * Concrete platforms and environments, for examples *)

(** An Arduino Uno: pins 2 and 3 map to the interrupts 0 and 1, every other
    pin to [NOT_AN_INTERRUPT] (-1); the core binds handlers to the
    interrupts 0 and 1 only. *)
Definition uno : Platform :=
  {| digitalPinToInterrupt :=
       fun p => if p =? 2 then 0 else if p =? 3 then 1 else -1;
     binds := fun irq => (0 <=? irq) && (irq <? 2) |}.

(** All inputs read [HIGH] (buttons up, pulled up), the clock reads [t]. *)
Definition idle_at (t : Z) : Env :=
  {| digitalRead := fun _ _ => 1; millis := fun _ => t |}.

(** The button on pin 2 is held down (its input reads [LOW]), every other
    input reads [HIGH]; the clock reads [t]. *)
Definition pin2_low_at (t : Z) : Env :=
  {| digitalRead := fun _ p => if p =? 2 then 0 else 1; millis := fun _ => t |}.

(** A class that was begun on pins 2 and 3 some time ago and holds unread
    flags. *)
Definition stale : Template.Buttons :=
  Template.mkButtons
    [Template.mkButton 2 3 10 10; Template.mkButton 3 4 20 20] true [1; 0]
    [3; 2].

(** The entry of a button on pin 2 as [begin] seeds it at time 0 with the
    button up. *)
Definition fresh : Template.Button := Template.seeded (idle_at 0) 0 2.

(** That entry after a click with the default delays: the press is accepted
    at 1000 and the release at 1200, and the main loop has read nothing. *)
Definition after_click : Template.Button :=
  @Template.run default_delays
    [Template.Sample 1000 true; Template.Sample 1200 false] fresh.

(** That entry after a press accepted at 100, inside the double-click
    window that [begin] opens, and held until 2000; the main loop has read
    nothing. *)
Definition after_long_hold : Template.Button :=
  @Template.run default_delays
    [Template.Sample 100 true; Template.Sample 2000 false] fresh.

(** * Bits of the state byte *)

Lemma testbit_BV (k n : Z) : 0 <= k -> Z.testbit (_BV k) n = (k =? n).
Proof.
  intros Hk. unfold _BV. rewrite Z.shiftl_1_l. apply Z.pow2_bits_eqb, Hk.
Qed.

Lemma land_BV (s k : Z) :
  0 <= k -> Z.land s (_BV k) = if Z.testbit s k then _BV k else 0.
Proof.
  intros Hk. apply Z.bits_inj'. intros n Hn.
  rewrite Z.land_spec, testbit_BV by assumption.
  destruct (Z.eqb_spec k n) as [->|Hne].
  - destruct (Z.testbit s n); simpl.
    + rewrite testbit_BV by assumption. symmetry. apply Z.eqb_refl.
    + symmetry. apply Z.bits_0.
  - rewrite andb_false_r. destruct (Z.testbit s k).
    + rewrite testbit_BV by assumption. symmetry. now apply Z.eqb_neq.
    + symmetry. apply Z.bits_0.
Qed.

Lemma BV_nonzero (k : Z) : 0 <= k -> _BV k <> 0.
Proof.
  intros Hk. unfold _BV. rewrite Z.shiftl_1_l.
  apply Z.pow_nonzero; lia.
Qed.

Lemma truthy_land_BV (s k : Z) :
  0 <= k -> negb (Z.land s (_BV k) =? 0) = Z.testbit s k.
Proof.
  intros Hk. rewrite land_BV by assumption.
  destruct (Z.testbit s k); simpl.
  - apply negb_true_iff, Z.eqb_neq, BV_nonzero, Hk.
  - reflexivity.
Qed.

Lemma testbit_u8 (z n : Z) : 0 <= n < 8 -> Z.testbit (u8 z) n = Z.testbit z n.
Proof.
  intros Hn. unfold u8. apply Z.mod_pow2_bits_low. lia.
Qed.

Lemma testbit_clear (s k n : Z) :
  0 <= k -> 0 <= n < 8 ->
  Z.testbit (u8 (Z.land s (Z.lnot (_BV k)))) n = Z.testbit s n && negb (k =? n).
Proof.
  intros Hk Hn. rewrite testbit_u8 by assumption.
  rewrite Z.land_spec, Z.lnot_spec, testbit_BV by lia. reflexivity.
Qed.

Lemma testbit_set (s k n : Z) :
  0 <= k -> 0 <= n < 8 ->
  Z.testbit (u8 (Z.lor s (_BV k))) n = Z.testbit s n || (k =? n).
Proof.
  intros Hk Hn. rewrite testbit_u8 by assumption.
  rewrite Z.lor_spec, testbit_BV by lia. reflexivity.
Qed.

Lemma u8_range (z : Z) : 0 <= u8 z < 2 ^ 8.
Proof. unfold u8. apply Z.mod_pos_bound. lia. Qed.

Lemma u32_range (z : Z) : 0 <= u32 z < 2 ^ 32.
Proof. unfold u32. apply Z.mod_pos_bound. lia. Qed.

Lemma u32_small (z : Z) : 0 <= z < 2 ^ 32 -> u32 z = z.
Proof. intros Hz. unfold u32. apply Z.mod_small, Hz. Qed.

Lemma elapsed_range (now then_ : Z) : 0 <= elapsed now then_ < 2 ^ 32.
Proof. apply u32_range. Qed.

(** The difference of two wrapped clock readings is the time that really
    passed, as long as less than one full turn of the counter passed. *)
Lemma elapsed_wrapped (t_then t_now : Z) :
  t_then <= t_now < t_then + 2 ^ 32 ->
  elapsed (u32 t_now) (u32 t_then) = t_now - t_then.
Proof.
  intros Hr. unfold elapsed, u32.
  rewrite <- Zminus_mod. apply Z.mod_small. lia.
Qed.

(** * The interrupt routine on one entry *)
Section UpdateFacts.
Context `{D : Delays}.
Import Template.

Lemma test_flag_BV (k : Z) (b : Button) :
  0 <= k -> test_flag (_BV k) b = Z.testbit (state b) k.
Proof. intros Hk. unfold test_flag. apply truthy_land_BV, Hk. Qed.

Lemma is_down_testbit (b : Button) : is_down b = Z.testbit (state b) 0.
Proof. unfold is_down, PRESSED_FLAG. apply truthy_land_BV. lia. Qed.

Lemma accepts_true (now : Z) (readState : bool) (b : Button) :
  accepts now readState b = true <->
  readState <> is_down b /\ BUTTON_DEBOUNCE_DELAY < elapsed now (lastChangeTime b).
Proof.
  unfold accepts. rewrite andb_true_iff, negb_true_iff, eqb_false_iff, Z.ltb_lt.
  reflexivity.
Qed.

(** The three ways [update] can go. *)
Lemma update_same (now : Z) (readState : bool) (b : Button) :
  readState = is_down b -> update now readState b = b.
Proof.
  intros ->. unfold update. rewrite eqb_reflx. reflexivity.
Qed.

Lemma update_rejected (now : Z) (readState : bool) (b : Button) :
  readState <> is_down b ->
  elapsed now (lastChangeTime b) <= BUTTON_DEBOUNCE_DELAY ->
  update now readState b = set_lastChangeTime b now.
Proof.
  intros Hne Hle. unfold update.
  apply eqb_false_iff in Hne. rewrite Hne. simpl.
  apply Z.ltb_ge in Hle. rewrite Hle. reflexivity.
Qed.

Lemma update_press (now : Z) (b : Button) :
  accepts now true b = true ->
  update now true b =
  mkButton (pin b)
    (if DOUBLE_CLICK_DELAY <? elapsed now (lastClickTime b)
     then Z.lor PRESSED_FLAG CLICKED_FLAG
     else Z.lor PRESSED_FLAG DOUBLE_CLICKED_FLAG)
    now now.
Proof.
  intros Hacc. apply accepts_true in Hacc as [Hne Hlt].
  unfold update. apply eqb_false_iff in Hne. rewrite Hne. simpl.
  apply Z.ltb_lt in Hlt. rewrite Hlt.
  destruct (DOUBLE_CLICK_DELAY <? elapsed now (lastClickTime b)); reflexivity.
Qed.

Lemma update_release (now : Z) (b : Button) :
  accepts now false b = true ->
  update now false b =
  mkButton (pin b)
    (u8 (Z.lor (u8 (Z.land (state b) (Z.lnot PRESSED_FLAG)))
               (if LONG_RELEASE_DELAY <? elapsed now (lastClickTime b)
                then LONG_RELEASED_FLAG else SHORT_RELEASED_FLAG)))
    now (lastClickTime b).
Proof.
  intros Hacc. apply accepts_true in Hacc as [Hne Hlt].
  unfold update. apply eqb_false_iff in Hne. rewrite Hne. simpl.
  apply Z.ltb_lt in Hlt. rewrite Hlt.
  destruct (LONG_RELEASE_DELAY <? elapsed now (lastClickTime b)); reflexivity.
Qed.

Lemma update_not_accepted (now : Z) (readState : bool) (b : Button) :
  accepts now readState b = false ->
  update now readState b = b \/ update now readState b = set_lastChangeTime b now.
Proof.
  intros Hacc. destruct (bool_decide (readState = is_down b)) eqn:E.
  - apply bool_decide_eq_true in E. left. now apply update_same.
  - apply bool_decide_eq_false in E. right. apply update_rejected; [assumption|].
    unfold accepts in Hacc. apply eqb_false_iff in E. rewrite E in Hacc.
    simpl in Hacc. now apply Z.ltb_ge.
Qed.

End UpdateFacts.

(** * Accepted presses *)
Section Press.
Context `{D : Delays}.
Import Template.

(** C1, amended.  When [button_ISR] accepts a press (the sample is active,
    the stored level is released, and more than [BUTTON_DEBOUNCE_DELAY]
    passed since [lastChangeTime]) the entry becomes pressed, and the press
    is classified one way or the other: [DOUBLE_CLICKED_FLAG] is set exactly
    when [now - lastClickTime <= DOUBLE_CLICK_DELAY], [CLICKED_FLAG] exactly
    when [now - lastClickTime > DOUBLE_CLICK_DELAY]; then [lastClickTime]
    and [lastChangeTime] are [now]. *)
Theorem accepted_press_classification (now : Z) (b : Button) :
  accepts now true b = true ->
  is_down (update now true b) = true
  /\ (test_flag DOUBLE_CLICKED_FLAG (update now true b) = true
      <-> elapsed now (lastClickTime b) <= DOUBLE_CLICK_DELAY)
  /\ (test_flag CLICKED_FLAG (update now true b) = true
      <-> DOUBLE_CLICK_DELAY < elapsed now (lastClickTime b))
  /\ lastClickTime (update now true b) = now
  /\ lastChangeTime (update now true b) = now.
Proof.
  intros Hacc. rewrite (update_press now b Hacc).
  destruct (Z.ltb_spec DOUBLE_CLICK_DELAY (elapsed now (lastClickTime b)))
    as [Hlt|Hge].
  - repeat split; try reflexivity; try (intros; assumption).
    + intros Habs. vm_compute in Habs. discriminate.
    + intros Hle. lia.
  - repeat split; try reflexivity; try (intros; assumption).
    + intros Habs. vm_compute in Habs. discriminate.
    + intros Hlt. lia.
Qed.

End Press.

Lemma accepted_press_classification_witness :
  @Template.accepts default_delays 1000 true (Template.mkButton 2 0 0 0) = true
  /\ Template.is_down
       (@Template.update default_delays 1000 true (Template.mkButton 2 0 0 0))
     = true.
Proof.
  split; [reflexivity|].
  exact (proj1 (@accepted_press_classification default_delays 1000
                  (Template.mkButton 2 0 0 0) eq_refl)).
Defined.

(** C1 as written fails: a press accepted 100 ms after the previous one is
    inside the double-click window, and the routine then stores
    [PRESSED_FLAG | DOUBLE_CLICKED_FLAG], without [CLICKED_FLAG]. *)
Lemma double_click_press_is_not_clicked :
  @Template.accepts default_delays 100 true (Template.mkButton 2 0 0 0) = true
  /\ elapsed 100 (Template.lastClickTime (Template.mkButton 2 0 0 0))
     <= @DOUBLE_CLICK_DELAY default_delays
  /\ Template.test_flag Template.DOUBLE_CLICKED_FLAG
       (@Template.update default_delays 100 true (Template.mkButton 2 0 0 0))
     = true
  /\ Template.test_flag Template.CLICKED_FLAG
       (@Template.update default_delays 100 true (Template.mkButton 2 0 0 0))
     = false.
Proof.
  repeat split; try reflexivity. vm_compute. discriminate.
Qed.

(** * How the event flags evolve *)
Section Flags.
Context `{D : Delays}.
Import Template.

Lemma flag_of_BV (g : Gesture) :
  exists k, 1 <= k <= 4 /\ flag_of g = _BV k.
Proof.
  destruct g; [exists 1|exists 2|exists 3|exists 4]; split; try lia; reflexivity.
Qed.

Lemma test_flag_clear (j k : Z) (b : Button) :
  0 <= j -> 0 <= k < 8 ->
  test_flag (_BV k) (clear_flag (_BV j) b) = test_flag (_BV k) b && negb (j =? k).
Proof.
  intros Hj Hk. rewrite !test_flag_BV by lia.
  unfold clear_flag. simpl. apply testbit_clear; assumption.
Qed.

Lemma is_down_clear_flag (g : Gesture) (b : Button) :
  is_down (clear_flag (flag_of g) b) = is_down b.
Proof.
  destruct (flag_of_BV g) as (k & Hk & ->).
  unfold is_down, PRESSED_FLAG. fold (test_flag (_BV 0) b).
  fold (test_flag (_BV 0) (clear_flag (_BV k) b)).
  rewrite test_flag_clear by lia.
  replace (k =? 0) with false by (symmetry; apply Z.eqb_neq; lia).
  apply andb_true_r.
Qed.

(** The value of an event flag after one run of the routine on an entry, in
    each of the ways the routine can go. *)
Lemma flags_after_update (now : Z) (readState : bool) (b : Button)
    (g : Gesture) :
  test_flag (flag_of g) (update now readState b) =
  if accepts now readState b then
    if readState then
      if DOUBLE_CLICK_DELAY <? elapsed now (lastClickTime b)
      then bool_decide (g = Clicked)
      else bool_decide (g = DoubleClicked)
    else
      test_flag (flag_of g) b
      || (if LONG_RELEASE_DELAY <? elapsed now (lastClickTime b)
          then bool_decide (g = LongReleased)
          else bool_decide (g = ShortReleased))
  else test_flag (flag_of g) b.
Proof.
  destruct (accepts now readState b) eqn:Hacc.
  - destruct readState.
    + rewrite (update_press now b Hacc).
      destruct (DOUBLE_CLICK_DELAY <? elapsed now (lastClickTime b));
        destruct g; reflexivity.
    + rewrite (update_release now b Hacc).
      assert (Hbit : forall j k, 1 <= j <= 4 -> 1 <= k <= 4 ->
                test_flag (_BV k)
                  (mkButton (pin b)
                     (u8 (Z.lor (u8 (Z.land (state b) (Z.lnot PRESSED_FLAG)))
                                (_BV j)))
                     now (lastClickTime b))
                = test_flag (_BV k) b || (j =? k)).
      { intros j k Hj Hk. rewrite !test_flag_BV by lia. simpl.
        rewrite testbit_set by lia. unfold PRESSED_FLAG.
        rewrite testbit_clear by lia.
        replace (0 =? k) with false by (symmetry; apply Z.eqb_neq; lia).
        simpl. now rewrite andb_true_r. }
      destruct (LONG_RELEASE_DELAY <? elapsed now (lastClickTime b)).
      * change LONG_RELEASED_FLAG with (_BV 3).
        destruct g; simpl flag_of;
          [change CLICKED_FLAG with (_BV 1)
          |change SHORT_RELEASED_FLAG with (_BV 2)
          |change LONG_RELEASED_FLAG with (_BV 3)
          |change DOUBLE_CLICKED_FLAG with (_BV 4)];
          rewrite Hbit by lia; reflexivity.
      * change SHORT_RELEASED_FLAG with (_BV 2).
        destruct g; simpl flag_of;
          [change CLICKED_FLAG with (_BV 1)
          |change SHORT_RELEASED_FLAG with (_BV 2)
          |change LONG_RELEASED_FLAG with (_BV 3)
          |change DOUBLE_CLICKED_FLAG with (_BV 4)];
          rewrite Hbit by lia; reflexivity.
  - destruct (update_not_accepted now readState b Hacc) as [-> | ->];
      reflexivity.
Qed.

(** C2, amended.  The value of every event flag after one run of the
    routine on an entry.  A sample that is not accepted leaves the flag as
    it was.  An accepted release keeps the flag if it was set and sets the
    flag of its own classification: flags accumulate by OR.  An accepted
    press does not accumulate: it overwrites the byte, so afterwards the
    only event flag set is the one that classifies the press, and unread
    [shortReleased], [longReleased] and earlier [clicked] / [doubleClicked]
    flags are gone. *)
Theorem update_event_flags (now : Z) (readState : bool) (b : Button)
    (g : Gesture) :
  test_flag (flag_of g) (update now readState b) =
  if accepts now readState b then
    if readState then
      if DOUBLE_CLICK_DELAY <? elapsed now (lastClickTime b)
      then bool_decide (g = Clicked)
      else bool_decide (g = DoubleClicked)
    else
      test_flag (flag_of g) b
      || (if LONG_RELEASE_DELAY <? elapsed now (lastClickTime b)
          then bool_decide (g = LongReleased)
          else bool_decide (g = ShortReleased))
  else test_flag (flag_of g) b.
Proof. apply flags_after_update. Qed.

End Flags.

(** C2 as written fails, on states that the routine itself produces from
    an entry seeded by [begin].  After a click (press at 1000, release at
    1200) the byte is [CLICKED_FLAG | SHORT_RELEASED_FLAG]; a press
    accepted at 1400 stores [PRESSED_FLAG | DOUBLE_CLICKED_FLAG] and the
    unread [shortReleased] is gone.  After a press at 100 held until 2000
    the byte is [LONG_RELEASED_FLAG | DOUBLE_CLICKED_FLAG]; a press
    accepted at 3000 stores [PRESSED_FLAG | CLICKED_FLAG] and the unread
    [longReleased] and [doubleClicked] are gone. *)
Lemma accepted_press_discards_unread_flags :
  Template.state after_click = 6
  /\ Template.test_flag Template.SHORT_RELEASED_FLAG after_click = true
  /\ @Template.accepts default_delays 1400 true after_click = true
  /\ Template.test_flag Template.SHORT_RELEASED_FLAG
       (@Template.update default_delays 1400 true after_click)
     = false
  /\ Template.state after_long_hold = 24
  /\ Template.test_flag Template.LONG_RELEASED_FLAG after_long_hold = true
  /\ Template.test_flag Template.DOUBLE_CLICKED_FLAG after_long_hold = true
  /\ @Template.accepts default_delays 3000 true after_long_hold = true
  /\ Template.test_flag Template.LONG_RELEASED_FLAG
       (@Template.update default_delays 3000 true after_long_hold)
     = false
  /\ Template.test_flag Template.DOUBLE_CLICKED_FLAG
       (@Template.update default_delays 3000 true after_long_hold)
     = false.
Proof. repeat split; reflexivity. Qed.

(** * Bounce bursts *)
Section Bounce.
Context `{D : Delays}.
Import Template.

Lemma bouncing_step (raw : bool) (t : Z) (b : Button) :
  elapsed t (lastChangeTime b) < BUTTON_DEBOUNCE_DELAY ->
  update t (negb raw) b =
  if eqb (negb raw) (is_down b) then b else set_lastChangeTime b t.
Proof.
  intros Hlt. destruct (eqb (negb raw) (is_down b)) eqn:E.
  - apply update_same, eqb_prop, E.
  - apply update_rejected; [now apply eqb_false_iff | lia].
Qed.

Lemma run_flips_bouncing (ts : list Z) :
  forall (raw : bool) (b : Button),
    bouncing raw ts b ->
    run_flips raw ts b =
    set_lastChangeTime b (last_pending (is_down b) raw ts (lastChangeTime b)).
Proof.
  induction ts as [|t ts IH]; intros raw b Hb; simpl.
  - now destruct b.
  - destruct Hb as [Hlt Hb]. rewrite (bouncing_step raw t b Hlt) in *.
    destruct (eqb (negb raw) (is_down b)).
    + apply IH, Hb.
    + rewrite (IH _ _ Hb). reflexivity.
Qed.

Lemma bouncing_take (ts : list Z) :
  forall (n : nat) (raw : bool) (b : Button),
    bouncing raw ts b -> bouncing raw (take n ts) b.
Proof.
  induction ts as [|t ts IH]; intros [|n] raw b Hb; simpl; try exact I.
  destruct Hb as [Hlt Hb]. split; [assumption|]. apply IH, Hb.
Qed.

Lemma last_pending_last (ts : list Z) :
  forall (confirmed raw : bool) (dflt t : Z),
    last ts = Some t ->
    level_after raw (length ts) <> confirmed ->
    last_pending confirmed raw ts dflt = t.
Proof.
  induction ts as [|t0 ts IH]; intros confirmed raw dflt t Hlast Hlev.
  - discriminate.
  - destruct ts as [|t1 ts].
    + simpl in *. injection Hlast as ->.
      apply eqb_false_iff in Hlev. now rewrite Hlev.
    + change (last (t0 :: t1 :: ts)) with (last (t1 :: ts)) in Hlast.
      change (last_pending confirmed raw (t0 :: t1 :: ts) dflt)
        with (last_pending confirmed (negb raw) (t1 :: ts)
                (if eqb (negb raw) confirmed then dflt else t0)).
      apply IH; assumption.
Qed.

(** C3, amended.  During a burst of flips, each dispatched strictly within
    [BUTTON_DEBOUNCE_DELAY] of the change recorded last, the stored level
    never changes, and neither do the state byte, the pin or
    [lastClickTime]: a rejected transition refreshes [lastChangeTime] only.
    [lastChangeTime] ends at the time of the last flip that left the raw
    level different from the stored one; a flip back to the stored level
    is not recorded.  In particular it is the time of the very last flip
    whenever the burst ends away from the stored level. *)
Theorem bounce_burst_suppressed (raw : bool) (ts : list Z) (b : Button) :
  bouncing raw ts b ->
  (forall n : nat, is_down (run_flips raw (take n ts) b) = is_down b)
  /\ state (run_flips raw ts b) = state b
  /\ pin (run_flips raw ts b) = pin b
  /\ lastClickTime (run_flips raw ts b) = lastClickTime b
  /\ lastChangeTime (run_flips raw ts b)
     = last_pending (is_down b) raw ts (lastChangeTime b)
  /\ (forall t : Z,
        last ts = Some t ->
        level_after raw (length ts) <> is_down b ->
        lastChangeTime (run_flips raw ts b) = t).
Proof.
  intros Hb. split.
  { intros n. rewrite (run_flips_bouncing _ _ _ (bouncing_take ts n raw b Hb)).
    reflexivity. }
  rewrite (run_flips_bouncing ts raw b Hb). repeat split.
  intros t Hlast Hlev. simpl. now apply last_pending_last.
Qed.

End Bounce.

Lemma bounce_burst_suppressed_witness :
  @Template.bouncing default_delays false [110; 120; 130]
    (Template.mkButton 2 0 100 0)
  /\ Template.lastChangeTime
       (@Template.run_flips default_delays false [110; 120; 130]
          (Template.mkButton 2 0 100 0))
     = 130.
Proof.
  assert (Hb : @Template.bouncing default_delays false [110; 120; 130]
                 (Template.mkButton 2 0 100 0)).
  { repeat split; vm_compute; reflexivity. }
  split; [exact Hb|].
  exact (proj2 (proj2 (proj2 (proj2 (proj2
    (@bounce_burst_suppressed default_delays false [110; 120; 130]
       (Template.mkButton 2 0 100 0) Hb))))) 130 eq_refl
    ltac:(vm_compute; discriminate)).
Defined.

(** C3 as written fails: the entry is released, the last change was
    recorded at 100; the raw level flips to pressed at 110 and back to
    released at 120.  Both flips are within the debounce delay of the
    change recorded last, yet [lastChangeTime] ends at 110, not at the
    time 120 of the last flip: the second flip finds the raw level equal
    to the stored one and the routine does nothing. *)
Lemma bounce_back_is_not_recorded :
  @Template.bouncing default_delays false [110; 120]
    (Template.mkButton 2 0 100 0)
  /\ last [110; 120] = Some 120
  /\ Template.lastChangeTime
       (@Template.run_flips default_delays false [110; 120]
          (Template.mkButton 2 0 100 0))
     = 110
  /\ Template.lastChangeTime
       (@Template.run_flips default_delays false [110; 120]
          (Template.mkButton 2 0 100 0))
     <> 120.
Proof.
  repeat split; try reflexivity; vm_compute; congruence.
Qed.

(** * From an accepted press to its release *)
Section Release.
Context `{D : Delays}.
Import Template.

Lemma held_after_press (t : Z) (b : Button) :
  accepts t true b = true -> held t (update t true b).
Proof.
  intros Hacc. rewrite (update_press t b Hacc).
  destruct (DOUBLE_CLICK_DELAY <? elapsed t (lastClickTime b));
    repeat split; reflexivity.
Qed.

Lemma held_step (t : Z) (ev : Event) (b : Button) :
  held t b -> quiet [ev] b = true -> held t (step ev b).
Proof.
  intros (Hd & Hc & Hs & Hl) Hq. destruct ev as [g|now r]; simpl in *.
  - repeat split.
    + now rewrite is_down_clear_flag.
    + assumption.
    + destruct (flag_of_BV g) as (k & Hk & ->).
      change SHORT_RELEASED_FLAG with (_BV 2) in *.
      rewrite test_flag_clear, Hs by lia. reflexivity.
    + destruct (flag_of_BV g) as (k & Hk & ->).
      change LONG_RELEASED_FLAG with (_BV 3) in *.
      rewrite test_flag_clear, Hl by lia. reflexivity.
  - rewrite andb_true_r in Hq. apply negb_true_iff in Hq.
    destruct (update_not_accepted now r b Hq) as [-> | ->];
      repeat split; assumption.
Qed.

Lemma held_run (evs : list Event) :
  forall (t : Z) (b : Button),
    held t b -> quiet evs b = true -> held t (run evs b).
Proof.
  induction evs as [|ev evs IH]; intros t b Hh Hq; simpl in *.
  - assumption.
  - apply andb_true_iff in Hq as [Hq1 Hq2].
    apply IH; [|assumption].
    apply held_step; [assumption|]. simpl. now rewrite Hq1.
Qed.

Lemma held_release (t now : Z) (b : Button) :
  held t b -> accepts now false b = true ->
  test_flag LONG_RELEASED_FLAG (update now false b)
  = (LONG_RELEASE_DELAY <? elapsed now t)
  /\ test_flag SHORT_RELEASED_FLAG (update now false b)
     = (elapsed now t <=? LONG_RELEASE_DELAY).
Proof.
  intros (Hd & Hc & Hs & Hl) Hacc.
  pose proof (flags_after_update now false b LongReleased) as HL.
  pose proof (flags_after_update now false b ShortReleased) as HS.
  rewrite Hacc in HL, HS. simpl flag_of in HL, HS.
  rewrite HL, HS, Hs, Hl, Hc. rewrite Z.leb_antisym.
  destruct (LONG_RELEASE_DELAY <? elapsed now t); split; reflexivity.
Qed.

(** C4, amended.  Take a press accepted at [t] and its release, accepted
    at [t'], with in between any gestures consumed by the main loop and any
    samples that the routine did not accept.  The holding time is measured
    from [lastClickTime], the time [t] of the accepted press, and the
    release sets exactly one of the two release flags: [longReleased] when
    [t' - t > LONG_RELEASE_DELAY], [shortReleased] when
    [t' - t <= LONG_RELEASE_DELAY].  So a press held for exactly
    [LONG_RELEASE_DELAY] is a short release, like one held for
    [LONG_RELEASE_DELAY - 1]; the first long one is
    [LONG_RELEASE_DELAY + 1]. *)
Theorem release_classification (b0 : Button) (t t' : Z) (evs : list Event) :
  accepts t true b0 = true ->
  quiet evs (update t true b0) = true ->
  accepts t' false (run evs (update t true b0)) = true ->
  lastClickTime (run evs (update t true b0)) = t
  /\ test_flag LONG_RELEASED_FLAG
       (update t' false (run evs (update t true b0)))
     = (LONG_RELEASE_DELAY <? elapsed t' t)
  /\ test_flag SHORT_RELEASED_FLAG
       (update t' false (run evs (update t true b0)))
     = negb (LONG_RELEASE_DELAY <? elapsed t' t)
  /\ (elapsed t' t = LONG_RELEASE_DELAY
      \/ elapsed t' t = LONG_RELEASE_DELAY - 1 ->
      test_flag SHORT_RELEASED_FLAG
        (update t' false (run evs (update t true b0))) = true
      /\ test_flag LONG_RELEASED_FLAG
           (update t' false (run evs (update t true b0))) = false).
Proof.
  intros Hpress Hquiet Hrel.
  pose proof (held_run evs t _ (held_after_press t b0 Hpress) Hquiet) as Hh.
  destruct (held_release t t' _ Hh Hrel) as [HL HS].
  rewrite HL, HS, <- Z.leb_antisym. repeat split.
  - apply Hh.
  - apply Z.leb_le. lia.
  - apply Z.ltb_ge. lia.
Qed.

End Release.

Lemma release_classification_witness :
  @Template.accepts default_delays 100 true (Template.mkButton 2 0 0 0) = true
  /\ Template.test_flag Template.SHORT_RELEASED_FLAG
       (@Template.update default_delays 1100 false
          (@Template.run default_delays
             [Template.Take Template.DoubleClicked; Template.Sample 110 false]
             (@Template.update default_delays 100 true
                (Template.mkButton 2 0 0 0))))
     = true
  /\ Template.test_flag Template.LONG_RELEASED_FLAG
       (@Template.update default_delays 1100 false
          (@Template.run default_delays
             [Template.Take Template.DoubleClicked; Template.Sample 110 false]
             (@Template.update default_delays 100 true
                (Template.mkButton 2 0 0 0))))
     = false.
Proof.
  split; [reflexivity|].
  exact (proj2 (proj2 (proj2
    (@release_classification default_delays (Template.mkButton 2 0 0 0)
       100 1100
       [Template.Take Template.DoubleClicked; Template.Sample 110 false]
       eq_refl eq_refl eq_refl)))
    (or_introl eq_refl)).
Defined.

(** C4 as written fails at the boundary: a press accepted at 100 and
    released at 1100 was held for exactly [LONG_RELEASE_DELAY] = 1000, and
    the routine classifies the release as short, not long, because it
    tests [now - lastClickTime > LONG_RELEASE_DELAY]. *)
Lemma release_at_the_boundary_is_short :
  @Template.accepts default_delays 100 true (Template.mkButton 2 0 0 0) = true
  /\ @Template.accepts default_delays 1100 false
       (@Template.update default_delays 100 true (Template.mkButton 2 0 0 0))
     = true
  /\ elapsed 1100 100 = @LONG_RELEASE_DELAY default_delays
  /\ Template.test_flag Template.LONG_RELEASED_FLAG
       (@Template.update default_delays 1100 false
          (@Template.update default_delays 100 true
             (Template.mkButton 2 0 0 0)))
     = false
  /\ Template.test_flag Template.SHORT_RELEASED_FLAG
       (@Template.update default_delays 1100 false
          (@Template.update default_delays 100 true
             (Template.mkButton 2 0 0 0)))
     = true.
Proof. repeat split; reflexivity. Qed.

(** * The read-and-clear accessors *)
Section Accessors.
Import Template.

Lemma testbit_u8_high (z n : Z) : 8 <= n -> Z.testbit (u8 z) n = false.
Proof. intros Hn. unfold u8. apply Z.mod_pow2_bits_high. lia. Qed.

Lemma clear_flag_twice (k : Z) (b : Button) :
  0 <= k -> clear_flag (_BV k) (clear_flag (_BV k) b) = clear_flag (_BV k) b.
Proof.
  intros Hk. unfold clear_flag, set_state. simpl. f_equal.
  apply Z.bits_inj'. intros n Hn.
  destruct (Z.lt_ge_cases n 8) as [Hlt|Hge].
  - rewrite !testbit_clear by lia.
    now destruct (Z.testbit (state b) n), (k =? n).
  - now rewrite !testbit_u8_high.
Qed.

Lemma accessor_of_eq (g : Gesture) (buttonId : nat) (s : Buttons) :
  accessor_of g buttonId s =
  (b ← _buttons s !! buttonId;
   Some (test_flag (flag_of g) b,
         set_buttons s (<[buttonId := clear_flag (flag_of g) b]> (_buttons s)))).
Proof. destruct g; reflexivity. Qed.

Lemma test_flag_clear_other (g g' : Gesture) (b : Button) :
  test_flag (flag_of g') (clear_flag (flag_of g) b)
  = if bool_decide (g' = g) then false else test_flag (flag_of g') b.
Proof.
  destruct g, g'; simpl flag_of;
    unfold CLICKED_FLAG, SHORT_RELEASED_FLAG, LONG_RELEASED_FLAG,
      DOUBLE_CLICKED_FLAG;
    rewrite test_flag_clear by lia; simpl;
    rewrite ?andb_true_r, ?andb_false_r; reflexivity.
Qed.

(** C5.  Each take accessor ([clicked], [shortReleased], [longReleased],
    [doubleClicked]) called on a valid index returns the value its flag had
    before the call and clears that flag; called again with nothing in
    between it returns false and changes nothing more.  The other flags of
    the entry, its stored level, pin and times, and all other entries are
    left as they were. *)
Theorem take_reads_and_clears (g : Gesture) (buttonId : nat) (s : Buttons)
    (b : Button) :
  _buttons s !! buttonId = Some b ->
  exists (s' : Buttons) (b' : Button),
    accessor_of g buttonId s = Some (test_flag (flag_of g) b, s')
    /\ accessor_of g buttonId s' = Some (false, s')
    /\ _buttons s' !! buttonId = Some b'
    /\ test_flag (flag_of g) b' = false
    /\ (forall g' : Gesture,
          g' <> g -> test_flag (flag_of g') b' = test_flag (flag_of g') b)
    /\ is_down b' = is_down b
    /\ pin b' = pin b
    /\ lastChangeTime b' = lastChangeTime b
    /\ lastClickTime b' = lastClickTime b
    /\ (forall j : nat, j <> buttonId -> _buttons s' !! j = _buttons s !! j)
    /\ _begun s' = _begun s
    /\ irqs s' = irqs s.
Proof.
  intros Hb.
  assert (Hlen : (buttonId < length (_buttons s))%nat)
    by (eapply lookup_lt_Some; eassumption).
  exists (set_buttons s (<[buttonId := clear_flag (flag_of g) b]> (_buttons s))),
         (clear_flag (flag_of g) b).
  assert (Hlook : <[buttonId := clear_flag (flag_of g) b]> (_buttons s)
                    !! buttonId = Some (clear_flag (flag_of g) b))
    by (apply list_lookup_insert_eq, Hlen).
  repeat split.
  - rewrite accessor_of_eq, Hb. reflexivity.
  - rewrite accessor_of_eq. simpl. rewrite Hlook. simpl.
    rewrite test_flag_clear_other, bool_decide_eq_true_2 by reflexivity.
    destruct (flag_of_BV g) as (k & Hk & ->).
    rewrite clear_flag_twice by lia.
    unfold set_buttons. simpl. rewrite list_insert_insert_eq. reflexivity.
  - exact Hlook.
  - rewrite test_flag_clear_other. now rewrite bool_decide_eq_true_2.
  - intros g' Hne. rewrite test_flag_clear_other.
    now rewrite bool_decide_eq_false_2.
  - apply is_down_clear_flag.
  - intros j Hj. simpl. apply list_lookup_insert_ne. congruence.
Qed.

End Accessors.

Lemma take_reads_and_clears_witness :
  Template._buttons
    (Template.mkButtons
       [Template.mkButton 2 0 0 0; Template.mkButton 3 7 40 40] true [0; 1]
       [3; 2]) !! 1%nat
  = Some (Template.mkButton 3 7 40 40)
  /\ exists s' : Template.Buttons,
       Template.clicked 1
         (Template.mkButtons
            [Template.mkButton 2 0 0 0; Template.mkButton 3 7 40 40] true
            [0; 1] [3; 2])
       = Some (true, s')
       /\ Template.clicked 1 s' = Some (false, s').
Proof.
  split; [reflexivity|].
  destruct (take_reads_and_clears Template.Clicked 1
              (Template.mkButtons
                 [Template.mkButton 2 0 0 0; Template.mkButton 3 7 40 40]
                 true [0; 1] [3; 2])
              (Template.mkButton 3 7 40 40) eq_refl)
    as (s' & b' & H1 & H2 & _).
  exists s'. split; [exact H1 | exact H2].
Defined.

(** * The loops over the array *)
Section Loops.
Import Template.

Lemma read_write_alter (g : Button -> Button) (i : nat) (bs : list Button) :
  match bs !! i with
  | Some b => <[i := g b]> bs
  | None => bs
  end = alter g i bs.
Proof.
  revert i. induction bs as [|b bs IH]; intros [|i]; simpl; try reflexivity.
  change (list_alter g i bs) with (alter g i bs).
  rewrite <- (IH i). now destruct (bs !! i).
Qed.

Lemma for_each_length (f : nat -> Button -> Button) (n : nat) :
  forall (i : nat) (bs : list Button), length (for_each f i n bs) = length bs.
Proof.
  induction n as [|n IH]; intros i bs; simpl; [reflexivity|].
  rewrite IH. apply length_alter.
Qed.

Lemma for_each_lookup (f : nat -> Button -> Button) (n : nat) :
  forall (i : nat) (bs : list Button) (j : nat),
    for_each f i n bs !! j =
    if bool_decide (i <= j < i + n)%nat then f j <$> bs !! j else bs !! j.
Proof.
  induction n as [|n IH]; intros i bs j; simpl.
  - rewrite bool_decide_eq_false_2 by lia. reflexivity.
  - rewrite IH. destruct (decide (j = i)) as [->|Hne].
    + rewrite bool_decide_eq_false_2 by lia.
      rewrite bool_decide_eq_true_2 by lia.
      apply list_lookup_alter_eq.
    + rewrite list_lookup_alter_ne by congruence.
      destruct (decide (S i <= j < S i + n)%nat).
      * rewrite !bool_decide_eq_true_2 by lia. reflexivity.
      * rewrite !bool_decide_eq_false_2 by lia. reflexivity.
Qed.

Lemma button_ISR_loop_for_each `{D : Delays} (e : Env) (now : Z) (n : nat) :
  forall (i : nat) (bs : list Button),
    button_ISR_loop e now i n bs =
    for_each (fun j b => update now (polledDown (digitalRead e j (pin b))) b)
      i n bs.
Proof.
  induction n as [|n IH]; intros i bs; simpl; [reflexivity|].
  rewrite (read_write_alter
             (fun b => update now (polledDown (digitalRead e i (pin b))) b)).
  apply IH.
Qed.

Lemma begin_init_for_each (e : Env) (n : nat) :
  forall (i : nat) (bs : list Button),
    begin_init e i n bs = for_each (fun j b => seeded e j (pin b)) i n bs.
Proof.
  induction n as [|n IH]; intros i bs; simpl; [reflexivity|].
  rewrite <- IH. f_equal.
  rewrite <- (read_write_alter (fun b => seeded e i (pin b))).
  reflexivity.
Qed.

Lemma begin_pins_spec (pins : list Z) (n : nat) :
  forall (i : nat) (s : Buttons),
    (i + n <= length pins)%nat ->
    exists s' : Buttons,
      begin_pins pins i n s = Some s'
      /\ _buttons s' =
         for_each (fun j b => set_pin b (default 0 (pins !! j))) i n (_buttons s)
      /\ _begun s' = _begun s
      /\ irqs s' = irqs s.
Proof.
  induction n as [|n IH]; intros i s Hle; simpl.
  - exists s. repeat split.
  - destruct (lookup_lt_is_Some_2 pins i ltac:(lia)) as [p Hp].
    rewrite Hp. simpl.
    destruct (IH (S i)
                (set_pullups
                   (set_buttons s
                      match _buttons s !! i with
                      | Some b => <[i := set_pin b p]> (_buttons s)
                      | None => _buttons s
                      end) (p :: pullups s)) ltac:(lia))
      as (s' & Hs' & Hbs & Hbg & Hirq).
    exists s'. rewrite Hs'. repeat split; try assumption.
    rewrite Hbs. simpl.
    rewrite (read_write_alter (fun b => set_pin b p)). reflexivity.
Qed.

Lemma begin_pins_short (pins : list Z) (n : nat) :
  forall (i : nat) (s : Buttons),
    (length pins < i + n)%nat -> (i <= length pins)%nat ->
    begin_pins pins i n s = None.
Proof.
  induction n as [|n IH]; intros i s Hlt Hle; simpl; [lia|].
  destruct (pins !! i) as [p|] eqn:Hp; simpl; [|reflexivity].
  apply lookup_lt_Some in Hp. apply IH; lia.
Qed.

Lemma begin_attach_spec `{P : Platform} (pins : list Z) (n : nat) :
  forall (i : nat) (s : Buttons),
    (i + n <= length pins)%nat ->
    exists s' : Buttons,
      begin_attach pins i n s = Some s'
      /\ _buttons s' = _buttons s
      /\ _begun s' = _begun s
      /\ (forall x : Z, x ∈ irqs s -> x ∈ irqs s')
      /\ (forall (j : nat) (p : Z),
            (i <= j < i + n)%nat -> pins !! j = Some p ->
            binds (digitalPinToInterrupt p) = true ->
            digitalPinToInterrupt p ∈ irqs s').
Proof.
  induction n as [|n IH]; intros i s Hle; simpl.
  - exists s. repeat split; try (intros; assumption). intros; lia.
  - destruct (lookup_lt_is_Some_2 pins i ltac:(lia)) as [p Hp].
    rewrite Hp. simpl.
    destruct (IH (S i)
                (set_irqs s (attachInterrupt (digitalPinToInterrupt p) (irqs s)))
                ltac:(lia))
      as (s' & Hs' & Hbs & Hbg & Hmono & Hin).
    exists s'. rewrite Hs'. repeat split; try assumption.
    + intros x Hx. apply Hmono. simpl. unfold attachInterrupt.
      destruct (binds (digitalPinToInterrupt p)); [now right | assumption].
    + intros j q Hj Hq Hb. destruct (decide (j = i)) as [->|Hne].
      * rewrite Hp in Hq. injection Hq as <-.
        apply Hmono. simpl. unfold attachInterrupt. rewrite Hb. now left.
      * apply (Hin j q); [lia | assumption | assumption].
Qed.

Lemma stop_loop_spec `{P : Platform} (n : nat) :
  forall (i : nat) (s : Buttons),
    _buttons (stop_loop i n s) = _buttons s
    /\ _begun (stop_loop i n s) = _begun s
    /\ pullups (stop_loop i n s) = pullups s
    /\ (forall x : Z, x ∈ irqs (stop_loop i n s) -> x ∈ irqs s)
    /\ (forall (j : nat) (b : Button),
          (i <= j < i + n)%nat -> _buttons s !! j = Some b ->
          digitalPinToInterrupt (pin b) ∉ irqs (stop_loop i n s)).
Proof.
  induction n as [|n IH]; intros i s; simpl.
  - repeat split; try (intros; assumption). intros; lia.
  - set (s1 := match _buttons s !! i with
               | Some b =>
                   set_irqs s
                     (detachInterrupt (digitalPinToInterrupt (pin b)) (irqs s))
               | None => s
               end).
    assert (Hbs1 : _buttons s1 = _buttons s)
      by (subst s1; destruct (_buttons s !! i); reflexivity).
    assert (Hbg1 : _begun s1 = _begun s)
      by (subst s1; destruct (_buttons s !! i); reflexivity).
    assert (Hpu1 : pullups s1 = pullups s)
      by (subst s1; destruct (_buttons s !! i); reflexivity).
    assert (Hsub1 : forall x, x ∈ irqs s1 -> x ∈ irqs s).
    { subst s1. destruct (_buttons s !! i); simpl; [|tauto].
      intros x Hx. unfold detachInterrupt in Hx.
      apply list_elem_of_filter in Hx. tauto. }
    destruct (IH (S i) s1) as (Hbs & Hbg & Hpu & Hsub & Hout).
    repeat split; try congruence.
    + intros x Hx. apply Hsub1, Hsub, Hx.
    + intros j b Hj Hb. destruct (decide (j = i)) as [->|Hne].
      * intros Hin. apply Hsub in Hin. subst s1. rewrite Hb in Hin.
        simpl in Hin. unfold detachInterrupt in Hin.
        apply list_elem_of_filter in Hin. tauto.
      * apply (Hout j b); [lia | congruence].
Qed.

End Loops.

(** * [begin] and [stop] *)
Section Lifecycle.
Context `{P : Platform}.
Import Template.

Lemma stop_frame (N : nat) (s : Buttons) :
  _buttons (stop N s) = _buttons s
  /\ pullups (stop N s) = pullups s
  /\ _begun (stop N s) = false.
Proof.
  unfold stop. destruct (_begun s) eqn:Hb; simpl.
  - destruct (stop_loop_spec N 0 s) as (Hbs & _ & Hpu & _). now repeat split.
  - now repeat split.
Qed.

Lemma is_down_seeded (e : Env) (i : nat) (p : Z) :
  is_down (seeded e i p) = polledDown (digitalRead e i p).
Proof.
  unfold seeded, is_down, polledDown, truthy, LOW. simpl.
  now destruct (digitalRead e i p =? 0).
Qed.

Lemma test_flag_seeded (e : Env) (i : nat) (p : Z) (g : Gesture) :
  test_flag (flag_of g) (seeded e i p) = false.
Proof.
  unfold seeded, test_flag. simpl.
  destruct (truthy (digitalRead e i p)); now destruct g.
Qed.

Lemma begin_buttons (N : nat) (e : Env) (pins : list Z) (s : Buttons) :
  (N <= length pins)%nat ->
  exists s' : Buttons,
    begin N e (Some pins) s = Some (true, s')
    /\ _begun s' = true
    /\ _buttons s' =
       for_each (fun j b => seeded e j (pin b)) 0 N
         (for_each (fun j b => set_pin b (default 0 (pins !! j))) 0 N
            (_buttons s))
    /\ (forall (j : nat) (p : Z),
          (j < N)%nat -> pins !! j = Some p ->
          binds (digitalPinToInterrupt p) = true ->
          digitalPinToInterrupt p ∈ irqs s').
Proof.
  intros Hle. unfold begin.
  set (s0 := if _begun s then stop N s else s).
  assert (Hs0 : _buttons s0 = _buttons s).
  { subst s0. destruct (_begun s); [apply stop_frame | reflexivity]. }
  destruct (begin_pins_spec pins N 0 s0 ltac:(lia)) as (s1 & H1 & Hbs1 & _).
  destruct (begin_attach_spec pins N 0 s1 ltac:(lia))
    as (s2 & H2 & Hbs2 & _ & _ & Hin).
  rewrite H1. simpl. rewrite H2. simpl.
  eexists. split; [reflexivity|]. repeat split.
  - simpl. rewrite begin_init_for_each, Hbs2, Hbs1, Hs0. reflexivity.
  - intros j p Hj Hp Hb. simpl. apply (Hin j p); [lia | assumption | assumption].
Qed.

Lemma begin_entry (N : nat) (e : Env) (pins : list Z) (bs : list Button)
    (i : nat) (p : Z) :
  length bs = N -> (i < N)%nat -> pins !! i = Some p ->
  for_each (fun j b => seeded e j (pin b)) 0 N
    (for_each (fun j b => set_pin b (default 0 (pins !! j))) 0 N bs) !! i
  = Some (seeded e i p).
Proof.
  intros Hlen Hi Hp.
  destruct (lookup_lt_is_Some_2 bs i ltac:(lia)) as [b Hb].
  rewrite !for_each_lookup, !bool_decide_eq_true_2 by lia.
  rewrite Hb, Hp. reflexivity.
Qed.

(** C6.  [begin] called with an array of at least [NumberOfButtons] pins
    succeeds from any state of the class, begun or not.  Afterwards every
    entry holds its pin, its stored level is the level sampled from that pin
    in [begin] (pressed exactly when the pin read [LOW]), no event flag is
    set, and [lastChangeTime] and [lastClickTime] both hold the clock read
    for that entry.  A run of [button_ISR] that samples the same levels
    again changes nothing: the restart alone produces no event. *)
Theorem begin_seeds_every_entry `{D : Delays} (N : nat) (e : Env)
    (pins : list Z) (s : Buttons) :
  length (_buttons s) = N ->
  (N <= length pins)%nat ->
  exists s' : Buttons,
    begin N e (Some pins) s = Some (true, s')
    /\ _begun s' = true
    /\ length (_buttons s') = N
    /\ (forall (i : nat) (p : Z),
          (i < N)%nat -> pins !! i = Some p ->
          exists b : Button,
            _buttons s' !! i = Some b
            /\ pin b = p
            /\ is_down b = polledDown (digitalRead e i p)
            /\ (forall g : Gesture, test_flag (flag_of g) b = false)
            /\ lastChangeTime b = u32 (millis e i)
            /\ lastClickTime b = u32 (millis e i))
    /\ (forall e' : Env,
          (forall (i : nat) (p : Z),
              polledDown (digitalRead e' i p) = polledDown (digitalRead e i p)) ->
          button_ISR N e' s' = s').
Proof.
  intros Hlen Hle.
  destruct (begin_buttons N e pins s Hle) as (s' & Hbegin & Hbegun & Hbs & _).
  exists s'. split; [assumption|]. split; [assumption|].
  split; [now rewrite Hbs, !for_each_length|]. split.
  - intros i p Hi Hp. exists (seeded e i p). repeat split.
    + rewrite Hbs. now apply begin_entry.
    + apply is_down_seeded.
    + apply test_flag_seeded.
  - intros e' Hsame. unfold button_ISR.
    rewrite button_ISR_loop_for_each.
    replace (for_each _ 0 N (_buttons s')) with (_buttons s');
      [now destruct s'|].
    apply list_eq. intros j. rewrite for_each_lookup.
    destruct (decide (j < N)%nat) as [Hj|Hj].
    + rewrite bool_decide_eq_true_2 by lia.
      destruct (lookup_lt_is_Some_2 pins j ltac:(lia)) as [p Hp].
      rewrite Hbs, (begin_entry N e pins (_buttons s) j p Hlen Hj Hp). simpl.
      rewrite update_same; [reflexivity|].
      rewrite is_down_seeded. simpl. apply Hsame.
    + rewrite bool_decide_eq_false_2 by lia. reflexivity.
Qed.

End Lifecycle.

Lemma begin_seeds_every_entry_witness :
  length (Template._buttons stale) = 2%nat
  /\ (2 <= length [2; 3])%nat
  /\ exists s' : Template.Buttons,
       @Template.begin uno 2 (pin2_low_at 5000) (Some [2; 3]) stale
       = Some (true, s')
       /\ Template._begun s' = true.
Proof.
  split; [reflexivity|]. split; [simpl; lia|].
  destruct (@begin_seeds_every_entry uno default_delays 2 (pin2_low_at 5000)
              [2; 3] stale eq_refl ltac:(simpl; lia))
    as (s' & H1 & H2 & _).
  exists s'. split; [exact H1 | exact H2].
Defined.

Section BeginResult.
Context `{P : Platform}.
Import Template.

(** C7, amended.  [begin] reports failure in one case only, the null
    pointer, and then changes nothing.  Given any array that holds at least
    [NumberOfButtons] pins it reports success: it receives a bare pointer,
    so a count larger than [NumberOfButtons] goes unnoticed, and
    [attachInterrupt] returns nothing, so a binding that the platform
    refuses goes unnoticed too, while every binding that the platform
    accepted stays active.  An array shorter than [NumberOfButtons] is read
    past its end. *)
Theorem begin_result (N : nat) (e : Env) (buttonPins : option (list Z))
    (s : Buttons) :
  match buttonPins with
  | None => begin N e None s = Some (false, s)
  | Some pins =>
      if bool_decide (N <= length pins)%nat then
        exists s' : Buttons,
          begin N e (Some pins) s = Some (true, s')
          /\ _begun s' = true
          /\ (forall (j : nat) (p : Z),
                (j < N)%nat -> pins !! j = Some p ->
                binds (digitalPinToInterrupt p) = true ->
                digitalPinToInterrupt p ∈ irqs s')
      else begin N e (Some pins) s = None
  end.
Proof.
  destruct buttonPins as [pins|]; [|reflexivity].
  destruct (decide (N <= length pins)%nat) as [Hle|Hgt].
  - rewrite bool_decide_eq_true_2 by assumption.
    destruct (begin_buttons N e pins s Hle) as (s' & H1 & H2 & _ & H4).
    exists s'. repeat split; assumption.
  - rewrite bool_decide_eq_false_2 by assumption.
    unfold begin. rewrite begin_pins_short by lia. reflexivity.
Qed.

End BeginResult.

(** C7 as written fails on an Arduino Uno with [NumberOfButtons] = 2.
    Given three pins instead of two, [begin] returns success.  Given pins 2
    and 7, where pin 7 has no interrupt and the core binds nothing for it,
    [begin] returns success as well, and the interrupt 0 of pin 2 is left
    attached. *)
Lemma begin_ignores_count_and_binding :
  length [2; 3; 4] <> 2%nat
  /\ fst <$> @Template.begin uno 2 (idle_at 0) (Some [2; 3; 4])
               (Template.initial 2)
     = Some true
  /\ @binds uno (@digitalPinToInterrupt uno 7) = false
  /\ fst <$> @Template.begin uno 2 (idle_at 0) (Some [2; 7])
               (Template.initial 2)
     = Some true
  /\ Template.irqs ∘ snd <$> @Template.begin uno 2 (idle_at 0) (Some [2; 7])
                               (Template.initial 2)
     = Some [0].
Proof. repeat split; try reflexivity. simpl. lia. Qed.

Section Stop.
Context `{P : Platform}.
Import Template.

Lemma stop_not_begun (N : nat) (s : Buttons) :
  _begun s = false -> stop N s = s.
Proof. intros Hb. unfold stop. now rewrite Hb. Qed.

(** C9.  [stop] leaves every entry of the array as it is (pin, state byte
    with the stored level and all event flags, both times) in every state
    of the class.  It does nothing at all when the class is not begun, so a
    second [stop] changes nothing; when the class is begun it clears
    [_begun] and detaches the interrupt of every entry.  Every accessor
    answers after [stop] what it would have answered before. *)
Theorem stop_only_unbinds (N : nat) (s : Buttons) :
  _buttons (stop N s) = _buttons s
  /\ pullups (stop N s) = pullups s
  /\ _begun (stop N s) = false
  /\ stop N (stop N s) = stop N s
  /\ (_begun s = false -> stop N s = s)
  /\ (forall (g : Gesture) (buttonId : nat),
        fst <$> accessor_of g buttonId (stop N s)
        = fst <$> accessor_of g buttonId s)
  /\ (forall buttonId : nat, down buttonId (stop N s) = down buttonId s)
  /\ (_begun s = true ->
      forall (i : nat) (b : Button),
        (i < N)%nat -> _buttons s !! i = Some b ->
        digitalPinToInterrupt (pin b) ∉ irqs (stop N s)).
Proof.
  destruct (stop_frame N s) as (Hbs & Hpu & Hbg).
  split; [assumption|]. split; [assumption|]. split; [assumption|].
  split; [now apply stop_not_begun|]. split; [apply stop_not_begun|].
  split; [|split].
  - intros g buttonId. rewrite !accessor_of_eq, Hbs.
    now destruct (_buttons s !! buttonId).
  - intros buttonId. unfold down. now rewrite Hbs.
  - intros Hbegun i b Hi Hb. unfold stop. rewrite Hbegun. simpl.
    destruct (stop_loop_spec N 0 s) as (_ & _ & _ & _ & Hout).
    apply (Hout i b); [lia | assumption].
Qed.

End Stop.

Lemma stop_only_unbinds_witness :
  Template._begun stale = true
  /\ Template._buttons (@Template.stop uno 2 stale) = Template._buttons stale
  /\ Template.irqs (@Template.stop uno 2 stale) = []
  /\ fst <$> Template.clicked 0 (@Template.stop uno 2 stale) = Some true.
Proof.
  split; [reflexivity|].
  split; [exact (proj1 (@stop_only_unbinds uno 2 stale))|].
  split; reflexivity.
Defined.

(** * The one-button class *)
Section SingleButton.

Lemma logical_and_BV (a k : Z) :
  0 <= k -> Single.logical_and a (_BV k) = truthy a.
Proof.
  intros Hk. unfold Single.logical_and.
  replace (truthy (_BV k)) with true; [apply andb_true_r|].
  symmetry. apply negb_true_iff, Z.eqb_neq, BV_nonzero, Hk.
Qed.

Lemma single_pending (readState : bool) (s : Single.ButtonSingle) :
  Single.pending readState s = negb (eqb readState (truthy (Single.state s))).
Proof.
  unfold Single.pending, Single.PRESSED_FLAG.
  now rewrite logical_and_BV by lia.
Qed.

Lemma single_handler_same (e : Env) (s : Single.ButtonSingle) :
  negb (truthy (digitalRead e 0 (Single.pin s))) = truthy (Single.state s) ->
  Single.button_Handler e s = s.
Proof.
  intros Hsame. unfold Single.button_Handler.
  rewrite single_pending, Hsame, eqb_reflx. reflexivity.
Qed.

Lemma single_handler_pending_time (e : Env) (s : Single.ButtonSingle) :
  negb (truthy (digitalRead e 0 (Single.pin s))) <> truthy (Single.state s) ->
  Single.lastChangeTime (Single.button_Handler e s) = u32 (millis e 0).
Proof.
  intros Hne. apply eqb_false_iff in Hne. unfold Single.button_Handler.
  rewrite single_pending, Hne. reflexivity.
Qed.

(** C10.  In [ButtonSingle] the accessors [clicked], [released],
    [longClicked], [doubleClicked] and [down] are written with the logical
    [&&], so each of them answers true exactly when the whole state byte is
    non-zero, whatever its own bit holds; the take accessors still clear
    their own bit and no other.  [button_Handler] compares the sample with
    [state != 0] as well, not with the pressed bit: when the sample agrees
    with [state != 0] the handler changes nothing, and when it differs the
    handler acts (it stores the clock reading in [lastChangeTime]).  So, for
    instance, on a button that is merely held down (state byte
    [PRESSED_FLAG]) [clicked] answers true although the clicked bit is not
    set, and on a released button with an unread [RELEASED_FLAG] (pressed
    bit clear) a sample that reads pressed is not treated as a change,
    while with that button read as released the handler does act. *)
Theorem single_accessors_test_whole_byte (s : Single.ButtonSingle) :
  fst (Single.clicked s) = truthy (Single.state s)
  /\ fst (Single.released s) = truthy (Single.state s)
  /\ fst (Single.longClicked s) = truthy (Single.state s)
  /\ fst (Single.doubleClicked s) = truthy (Single.state s)
  /\ Single.down s = truthy (Single.state s)
  /\ (forall n : Z, 0 <= n < 8 ->
        Z.testbit (Single.state (snd (Single.clicked s))) n
        = Z.testbit (Single.state s) n && negb (1 =? n))
  /\ (forall n : Z, 0 <= n < 8 ->
        Z.testbit (Single.state (snd (Single.released s))) n
        = Z.testbit (Single.state s) n && negb (2 =? n))
  /\ (forall n : Z, 0 <= n < 8 ->
        Z.testbit (Single.state (snd (Single.longClicked s))) n
        = Z.testbit (Single.state s) n && negb (3 =? n))
  /\ (forall n : Z, 0 <= n < 8 ->
        Z.testbit (Single.state (snd (Single.doubleClicked s))) n
        = Z.testbit (Single.state s) n && negb (4 =? n))
  /\ (forall readState : bool,
        Single.pending readState s
        = negb (eqb readState (truthy (Single.state s))))
  /\ (forall e : Env,
        negb (truthy (digitalRead e 0 (Single.pin s)))
        = truthy (Single.state s) ->
        Single.button_Handler e s = s)
  /\ (forall e : Env,
        negb (truthy (digitalRead e 0 (Single.pin s)))
        <> truthy (Single.state s) ->
        Single.lastChangeTime (Single.button_Handler e s) = u32 (millis e 0))
  /\ fst (Single.clicked (Single.mkButtonSingle 2 Single.PRESSED_FLAG 0 0))
     = true
  /\ Z.testbit
       (Single.state (Single.mkButtonSingle 2 Single.PRESSED_FLAG 0 0)) 1
     = false
  /\ Z.testbit
       (Single.state (Single.mkButtonSingle 2 Single.RELEASED_FLAG 0 0)) 0
     = false
  /\ Single.button_Handler (pin2_low_at 5000)
       (Single.mkButtonSingle 2 Single.RELEASED_FLAG 0 0)
     = Single.mkButtonSingle 2 Single.RELEASED_FLAG 0 0
  /\ Single.button_Handler (idle_at 100)
       (Single.mkButtonSingle 2 Single.RELEASED_FLAG 0 0)
     = Single.mkButtonSingle 2 Single.RELEASED_FLAG 100 0.
Proof.
  repeat match goal with |- _ /\ _ => split end;
    try (apply logical_and_BV; lia);
    try (intros n Hn; apply testbit_clear; lia);
    try reflexivity.
  - intros readState. apply single_pending.
  - intros e. apply single_handler_same.
  - intros e. apply single_handler_pending_time.
Qed.

(** The handler acts on a sample exactly when it differs from
    [state != 0]: with an unread flag left in the byte of a released
    button, a press is not seen as a change. *)
Lemma single_handler_ignores_press_over_unread_flag :
  Single.button_Handler (pin2_low_at 5000)
    (Single.mkButtonSingle 2 Single.RELEASED_FLAG 0 0)
  = Single.mkButtonSingle 2 Single.RELEASED_FLAG 0 0.
Proof. reflexivity. Qed.

End SingleButton.

(** * The clock wrapping around *)
Section Wrap.
Context `{D : Delays}.
Import Template.

(** In [buttonsTemplate.h] the three tests of [button_ISR] subtract in
    [unsigned long], so with wrapped clock readings they decide as the time
    that really passed does: [t_change], [t_click] and [t_now] are times on
    a clock that never wraps, less than 2^32 ms apart. *)
Lemma update_across_wrap (t_change t_click t_now : Z) (readState : bool)
    (p st : Z) :
  t_change <= t_now < t_change + 2 ^ 32 ->
  t_click <= t_now < t_click + 2 ^ 32 ->
  accepts (u32 t_now) readState (mkButton p st (u32 t_change) (u32 t_click))
  = negb (eqb readState (is_down (mkButton p st (u32 t_change) (u32 t_click))))
    && (BUTTON_DEBOUNCE_DELAY <? t_now - t_change)
  /\ forall g : Gesture,
       test_flag (flag_of g)
         (update (u32 t_now) readState
            (mkButton p st (u32 t_change) (u32 t_click)))
       = if accepts (u32 t_now) readState
              (mkButton p st (u32 t_change) (u32 t_click))
         then
           if readState then
             if DOUBLE_CLICK_DELAY <? t_now - t_click
             then bool_decide (g = Clicked)
             else bool_decide (g = DoubleClicked)
           else
             test_flag (flag_of g) (mkButton p st (u32 t_change) (u32 t_click))
             || (if LONG_RELEASE_DELAY <? t_now - t_click
                 then bool_decide (g = LongReleased)
                 else bool_decide (g = ShortReleased))
         else test_flag (flag_of g)
                (mkButton p st (u32 t_change) (u32 t_click)).
Proof.
  intros Hchange Hclick. split.
  - unfold accepts. simpl. now rewrite elapsed_wrapped.
  - intros g. rewrite flags_after_update. simpl.
    now rewrite elapsed_wrapped.
Qed.

End Wrap.

(** C8.  [buttonsTemplate.h] and [buttonsSingle.cpp] subtract before they
    compare, [buttonsTemplateOld.h] does not: its debounce test is
    [millis() > lastChangeTime + DEBOUNCE_DELAY], and the sum wraps.  Two
    runs of the old routine around the wrap of the clock, on a released
    button whose input reads pressed:

    - the last change was recorded at 2^32 - 10 and the clock reads
      2^32 - 5: only 5 ms passed, but the sum wrapped to 40 and the
      transition is accepted, inside the debounce delay;
    - the last change was recorded at 2^32 - 100 and the clock, having
      wrapped, reads 10: 110 ms passed, but the transition is rejected.

    The routine of [buttonsTemplate.h] rejects the first and accepts the
    second. *)
Theorem old_debounce_fails_across_wrap :
  elapsed 4294967291 4294967286 = 5
  /\ Old.update 4294967291 4294967291 true
       (Old.mkButton 2 false false false 4294967286)
     = Old.mkButton 2 true true true 4294967291
  /\ @Template.accepts default_delays 4294967291 true
       (Template.mkButton 2 0 4294967286 0)
     = false
  /\ elapsed 10 4294967196 = 110
  /\ Old.update 10 10 true (Old.mkButton 2 false false false 4294967196)
     = Old.mkButton 2 false false false 10
  /\ @Template.accepts default_delays 10 true
       (Template.mkButton 2 0 4294967196 0)
     = true.
Proof. repeat split; reflexivity. Qed.

(** * More on the template class *)
Section TemplateMore.
Context `{D : Delays}.
Import Template.

(** [button_ISR] treats every entry on its own: after the run, entry [i]
    is the update of what entry [i] was, with the level read from its own
    pin and the one clock reading of the run; nothing else of the class is
    written. *)
Theorem button_ISR_entrywise (N : nat) (e : Env) (s : Buttons) (i : nat) :
  _buttons (button_ISR N e s) !! i
  = (if bool_decide (i < N)%nat
     then (fun b => update (u32 (millis e 0))
                      (polledDown (digitalRead e i (pin b))) b)
          <$> _buttons s !! i
     else _buttons s !! i)
  /\ length (_buttons (button_ISR N e s)) = length (_buttons s)
  /\ _begun (button_ISR N e s) = _begun s
  /\ irqs (button_ISR N e s) = irqs s
  /\ pullups (button_ISR N e s) = pullups s.
Proof.
  unfold button_ISR. simpl. rewrite button_ISR_loop_for_each.
  repeat split.
  - rewrite for_each_lookup.
    destruct (decide (i < N)%nat).
    + now rewrite !bool_decide_eq_true_2 by lia.
    + now rewrite !bool_decide_eq_false_2 by lia.
  - apply for_each_length.
Qed.

Lemma is_down_released_byte (st j : Z) (b : Button) (t1 t2 : Z) :
  1 <= j <= 4 ->
  is_down (mkButton (pin b)
             (u8 (Z.lor (u8 (Z.land st (Z.lnot PRESSED_FLAG))) (_BV j))) t1 t2)
  = false.
Proof.
  intros Hj. rewrite is_down_testbit. cbn [state].
  rewrite testbit_set by lia. unfold PRESSED_FLAG.
  rewrite testbit_clear by lia. cbn [negb Z.eqb].
  replace (j =? 0) with false by (symmetry; apply Z.eqb_neq; lia).
  now rewrite andb_false_r.
Qed.

(** What one run of the routine does to the fields of an entry: the pin is
    never written; the stored level changes only when the sample is
    accepted, and then becomes the sample; [lastClickTime] is written only
    by an accepted press; [lastChangeTime] is written whenever the sample
    differs from the stored level, accepted or not. *)
Theorem update_fields (now : Z) (readState : bool) (b : Button) :
  pin (update now readState b) = pin b
  /\ is_down (update now readState b)
     = (if accepts now readState b then readState else is_down b)
  /\ lastClickTime (update now readState b)
     = (if accepts now readState b && readState then now else lastClickTime b)
  /\ lastChangeTime (update now readState b)
     = (if eqb readState (is_down b) then lastChangeTime b else now).
Proof.
  destruct (accepts now readState b) eqn:Hacc.
  - pose proof Hacc as Hacc'. apply accepts_true in Hacc' as [Hne _].
    apply eqb_false_iff in Hne. rewrite Hne.
    destruct readState; simpl.
    + rewrite (update_press now b Hacc). repeat split.
      now destruct (DOUBLE_CLICK_DELAY <? elapsed now (lastClickTime b)).
    + rewrite (update_release now b Hacc). repeat split.
      destruct (LONG_RELEASE_DELAY <? elapsed now (lastClickTime b));
        [change LONG_RELEASED_FLAG with (_BV 3)
        |change SHORT_RELEASED_FLAG with (_BV 2)];
        apply is_down_released_byte; lia.
  - simpl. destruct (eqb readState (is_down b)) eqn:E.
    + apply eqb_prop in E. rewrite (update_same now readState b E).
      repeat split.
    + assert (Hu : update now readState b = set_lastChangeTime b now).
      { apply update_rejected; [now apply eqb_false_iff|].
        unfold accepts in Hacc. rewrite E in Hacc. simpl in Hacc.
        now apply Z.ltb_ge. }
      rewrite Hu. repeat split.
Qed.

End TemplateMore.

Section TemplateInvariants.
Context `{D : Delays}.
Import Template.

Lemma update_pending_time (now : Z) (readState : bool) (b : Button) :
  readState <> is_down b -> lastChangeTime (update now readState b) = now.
Proof.
  intros Hne. apply eqb_false_iff in Hne. unfold update. rewrite Hne.
  reflexivity.
Qed.

(** Two transitions are never accepted within the debounce delay of each
    other, and more: once a sample that differs from the stored level has
    been seen at [t], accepted or not, no sample taken within
    [BUTTON_DEBOUNCE_DELAY] of [t] is accepted; such a sample changes
    neither the state byte nor [lastClickTime]. *)
Theorem no_transition_within_debounce (t t' : Z) (r r' : bool) (b : Button) :
  r <> is_down b ->
  elapsed t' t <= BUTTON_DEBOUNCE_DELAY ->
  accepts t' r' (update t r b) = false
  /\ state (update t' r' (update t r b)) = state (update t r b)
  /\ lastClickTime (update t' r' (update t r b))
     = lastClickTime (update t r b).
Proof.
  intros Hne Hle.
  assert (Hacc : accepts t' r' (update t r b) = false).
  { unfold accepts. rewrite (update_pending_time t r b Hne).
    apply Z.ltb_ge in Hle. rewrite Hle. apply andb_false_r. }
  split; [assumption|].
  destruct (update_not_accepted t' r' _ Hacc) as [-> | ->]; split; reflexivity.
Qed.

Lemma below_32_bits (z : Z) :
  0 <= z -> (forall n : Z, 5 <= n -> Z.testbit z n = false) -> z < 32.
Proof.
  intros Hz Hbits.
  assert (Heq : z = z mod 2 ^ 5).
  { apply Z.bits_inj'. intros n Hn.
    destruct (Z.lt_ge_cases n 5) as [Hlt|Hge].
    - now rewrite Z.mod_pow2_bits_low.
    - rewrite Z.mod_pow2_bits_high by lia. now apply Hbits. }
  pose proof (Z.mod_pos_bound z (2 ^ 5) ltac:(lia)) as Hb.
  rewrite <- Heq in Hb. lia.
Qed.

Lemma bits_below_32 (z : Z) (n : Z) :
  0 <= z < 32 -> 5 <= n -> Z.testbit z n = false.
Proof.
  intros Hz Hn. rewrite <- (Z.mod_small z (2 ^ 5)) by lia.
  apply Z.mod_pow2_bits_high. lia.
Qed.

Lemma cleared_below_32 (st k : Z) :
  0 <= k -> 0 <= st < 32 -> 0 <= u8 (Z.land st (Z.lnot (_BV k))) < 32.
Proof.
  intros Hk Hst. split; [apply u8_range|].
  apply below_32_bits; [apply u8_range|]. intros n Hn.
  destruct (Z.lt_ge_cases n 8) as [Hlt|Hge].
  - rewrite testbit_clear by lia. now rewrite (bits_below_32 st n).
  - now apply testbit_u8_high.
Qed.

Lemma set_below_32 (st j : Z) :
  0 <= j <= 4 -> 0 <= st < 32 -> 0 <= u8 (Z.lor st (_BV j)) < 32.
Proof.
  intros Hj Hst. split; [apply u8_range|].
  apply below_32_bits; [apply u8_range|]. intros n Hn.
  destruct (Z.lt_ge_cases n 8) as [Hlt|Hge].
  - rewrite testbit_set by lia. rewrite (bits_below_32 st n) by lia.
    simpl. apply Z.eqb_neq. lia.
  - now apply testbit_u8_high.
Qed.

Lemma step_below_32 (ev : Event) (b : Button) :
  0 <= state b < 32 -> 0 <= state (step ev b) < 32.
Proof.
  intros Hst. destruct ev as [g|now r]; simpl.
  - destruct (flag_of_BV g) as (k & Hk & ->). apply cleared_below_32; lia.
  - destruct (accepts now r b) eqn:Hacc.
    + destruct r.
      * rewrite (update_press now b Hacc). simpl.
        destruct (DOUBLE_CLICK_DELAY <? elapsed now (lastClickTime b));
          vm_compute; split; congruence.
      * rewrite (update_release now b Hacc). simpl.
        destruct (LONG_RELEASE_DELAY <? elapsed now (lastClickTime b));
          [change LONG_RELEASED_FLAG with (_BV 3)
          |change SHORT_RELEASED_FLAG with (_BV 2)];
          (apply set_below_32; [lia|]);
          unfold PRESSED_FLAG; apply cleared_below_32; lia.
    + destruct (update_not_accepted now r b Hacc) as [-> | ->]; exact Hst.
Qed.

(** The state byte never holds anything but the five flags: if it is
    below 32 it stays below 32 through any sequence of interrupts and of
    gestures consumed by the main loop. *)
Theorem state_byte_stays_in_flags (evs : list Event) (b : Button) :
  0 <= state b < 32 -> 0 <= state (run evs b) < 32.
Proof.
  revert b. induction evs as [|ev evs IH]; intros b Hst; simpl.
  - exact Hst.
  - apply IH, step_below_32, Hst.
Qed.

End TemplateInvariants.

Lemma no_transition_within_debounce_witness :
  true <> Template.is_down (Template.mkButton 2 0 0 0)
  /\ elapsed 1020 1000 <= @BUTTON_DEBOUNCE_DELAY default_delays
  /\ @Template.accepts default_delays 1020 false
       (@Template.update default_delays 1000 true (Template.mkButton 2 0 0 0))
     = false.
Proof.
  assert (H1 : true <> Template.is_down (Template.mkButton 2 0 0 0))
    by (vm_compute; discriminate).
  assert (H2 : elapsed 1020 1000 <= @BUTTON_DEBOUNCE_DELAY default_delays)
    by (vm_compute; discriminate).
  split; [exact H1|]. split; [exact H2|].
  exact (proj1 (@no_transition_within_debounce default_delays 1000 1020 true
                  false (Template.mkButton 2 0 0 0) H1 H2)).
Defined.

Lemma state_byte_stays_in_flags_witness :
  0 <= Template.state (Template.mkButton 2 28 0 0) < 32
  /\ 0 <= Template.state
            (@Template.run default_delays
               [Template.Sample 1000 true; Template.Take Template.Clicked;
                Template.Sample 3000 false]
               (Template.mkButton 2 28 0 0)) < 32.
Proof.
  assert (H : 0 <= Template.state (Template.mkButton 2 28 0 0) < 32)
    by (simpl; lia).
  split; [exact H|].
  exact (@state_byte_stays_in_flags default_delays
           [Template.Sample 1000 true; Template.Take Template.Clicked;
            Template.Sample 3000 false]
           (Template.mkButton 2 28 0 0) H).
Defined.

Section BeginStop.
Context `{P : Platform}.
Import Template.

(** [stop] undoes the bindings of [begin]: after a successful [begin] on
    [pins] followed by [stop], no interrupt of any of the
    [NumberOfButtons] pins is attached any more, the class is not begun,
    and the entries are as [begin] left them. *)
Theorem begin_then_stop (N : nat) (e : Env) (pins : list Z) (s s' : Buttons) :
  length (_buttons s) = N ->
  (N <= length pins)%nat ->
  begin N e (Some pins) s = Some (true, s') ->
  _begun (stop N s') = false
  /\ _buttons (stop N s') = _buttons s'
  /\ (forall (i : nat) (p : Z),
        (i < N)%nat -> pins !! i = Some p ->
        digitalPinToInterrupt p ∉ irqs (stop N s')).
Proof.
  intros Hlen Hle Hbegin.
  destruct (begin_buttons N e pins s Hle) as (s1 & H1 & Hbegun & Hbs & _).
  rewrite H1 in Hbegin. injection Hbegin as <-.
  destruct (stop_frame N s1) as (Hfr & _ & Hbg).
  split; [assumption|]. split; [assumption|].
  intros i p Hi Hp. unfold stop. rewrite Hbegun. simpl.
  destruct (stop_loop_spec N 0 s1) as (_ & _ & _ & _ & Hout).
  assert (Hentry : _buttons s1 !! i = Some (seeded e i p))
    by (rewrite Hbs; now apply begin_entry).
  apply (Hout i (seeded e i p)); [lia | exact Hentry].
Qed.

End BeginStop.

Lemma begin_then_stop_witness :
  length (Template._buttons stale) = 2%nat
  /\ (2 <= length [2; 3])%nat
  /\ exists s' : Template.Buttons,
       @Template.begin uno 2 (pin2_low_at 5000) (Some [2; 3]) stale
       = Some (true, s')
       /\ Template._begun (@Template.stop uno 2 s') = false.
Proof.
  split; [reflexivity|]. split; [simpl; lia|].
  eexists. split; [reflexivity|].
  exact (proj1 (@begin_then_stop uno 2 (pin2_low_at 5000) [2; 3] stale _
                  eq_refl ltac:(simpl; lia) eq_refl)).
Defined.

Section TakeOrder.
Import Template.

Lemma clear_flag_comm (j k : Z) (b : Button) :
  0 <= j -> 0 <= k ->
  clear_flag (_BV j) (clear_flag (_BV k) b)
  = clear_flag (_BV k) (clear_flag (_BV j) b).
Proof.
  intros Hj Hk. unfold clear_flag, set_state. simpl. f_equal.
  apply Z.bits_inj'. intros n Hn.
  destruct (Z.lt_ge_cases n 8) as [Hlt|Hge].
  - rewrite !testbit_clear by lia.
    now destruct (Z.testbit (state b) n), (j =? n), (k =? n).
  - now rewrite !testbit_u8_high.
Qed.

(** The order in which the main loop polls does not matter: taking gesture
    [g1] of button [i] and then gesture [g2] of button [j] gives the same
    two answers and the same final state as taking them the other way
    round, unless they are the same flag of the same button. *)
Theorem takes_commute (g1 g2 : Gesture) (i j : nat) (s : Buttons) :
  i <> j \/ g1 <> g2 ->
  take_both g1 i g2 j s
  = (fun r => (snd (fst r), fst (fst r), snd r)) <$> take_both g2 j g1 i s.
Proof.
  intros Hdiff. unfold take_both. rewrite !accessor_of_eq.
  destruct (_buttons s !! i) as [bi|] eqn:Hi;
    destruct (_buttons s !! j) as [bj|] eqn:Hj; simpl;
    rewrite ?accessor_of_eq; simpl.
  - assert (Hli : (i < length (_buttons s))%nat) by (eapply lookup_lt_Some; eauto).
    assert (Hlj : (j < length (_buttons s))%nat) by (eapply lookup_lt_Some; eauto).
    destruct (decide (i = j)) as [->|Hne].
    + assert (Hg : g1 <> g2) by (destruct Hdiff; congruence).
      rewrite Hi in Hj. injection Hj as <-.
      rewrite !list_lookup_insert_eq by assumption. simpl.
      rewrite !test_flag_clear_other.
      rewrite !bool_decide_eq_false_2 by congruence.
      unfold set_buttons. simpl. rewrite !list_insert_insert_eq.
      destruct (flag_of_BV g1) as (k1 & Hk1 & ->).
      destruct (flag_of_BV g2) as (k2 & Hk2 & ->).
      rewrite (clear_flag_comm k2 k1) by lia. reflexivity.
    + rewrite !list_lookup_insert_ne by congruence. rewrite Hi, Hj. simpl.
      unfold set_buttons. simpl.
      rewrite (list_insert_insert_ne _ i j) by congruence. reflexivity.
  - destruct (decide (i = j)) as [->|Hne]; [congruence|].
    rewrite list_lookup_insert_ne by congruence. rewrite Hj. reflexivity.
  - destruct (decide (i = j)) as [->|Hne]; [congruence|].
    rewrite list_lookup_insert_ne by congruence. rewrite Hi. reflexivity.
  - reflexivity.
Qed.

End TakeOrder.

Lemma takes_commute_witness :
  (0%nat <> 1%nat \/ Template.Clicked <> Template.ShortReleased)
  /\ Template.take_both Template.Clicked 0 Template.ShortReleased 1 stale
     = (fun r => (snd (fst r), fst (fst r), snd r))
       <$> Template.take_both Template.ShortReleased 1 Template.Clicked 0 stale.
Proof.
  assert (H : 0%nat <> 1%nat \/ Template.Clicked <> Template.ShortReleased)
    by (left; discriminate).
  split; [exact H|].
  exact (takes_commute Template.Clicked Template.ShortReleased 0 1 stale H).
Defined.

(** * More on the one-button class *)
Section SingleMore.

(** [button_Handler] does nothing when the sample agrees with
    [state != 0].  So a sample that reads pressed is ignored as long as any
    bit of the state byte is set, an unread event flag as well as the
    pressed bit, and a sample that reads released is ignored when the byte
    is zero. *)
Theorem single_handler_ignores (e : Env) (s : Single.ButtonSingle) :
  negb (truthy (digitalRead e 0 (Single.pin s))) = truthy (Single.state s) ->
  Single.button_Handler e s = s.
Proof. apply single_handler_same. Qed.

(** An accepted press in [ButtonSingle]: the byte is zero, the input reads
    [LOW] and more than [DEBOUNCE_DELAY] passed since [lastChangeTime].
    The handler then stores [PRESSED_FLAG | CLICKED_FLAG], and adds
    [DOUBLE_CLICKED_FLAG] exactly when more than [DOUBLE_CLICK_DELAY]
    passed since the previous accepted press; both times become the clock
    reading. *)
Theorem single_accepted_press (e : Env) (s : Single.ButtonSingle) :
  truthy (digitalRead e 0 (Single.pin s)) = false ->
  truthy (Single.state s) = false ->
  Single.DEBOUNCE_DELAY
  < elapsed (u32 (millis e 0)) (Single.lastChangeTime s) ->
  Single.button_Handler e s
  = Single.mkButtonSingle (Single.pin s)
      (if Single.DOUBLE_CLICK_DELAY
          <? elapsed (u32 (millis e 0)) (Single.lastClickTime s)
       then Z.lor (Z.lor Single.PRESSED_FLAG Single.CLICKED_FLAG)
              Single.DOUBLE_CLICKED_FLAG
       else Z.lor Single.PRESSED_FLAG Single.CLICKED_FLAG)
      (u32 (millis e 0)) (u32 (millis e 0)).
Proof.
  intros Hlow Hzero Hdeb. unfold Single.button_Handler.
  rewrite single_pending, Hlow, Hzero. simpl.
  apply Z.ltb_lt in Hdeb. rewrite Hdeb.
  destruct (Single.DOUBLE_CLICK_DELAY
            <? elapsed (u32 (millis e 0)) (Single.lastClickTime s));
    reflexivity.
Qed.

(** An accepted release in [ButtonSingle]: the byte is not zero, the input
    reads [HIGH] and more than [DEBOUNCE_DELAY] passed.  The handler clears
    the pressed bit, sets the released bit, sets the long-clicked bit when
    more than [LONG_CLICK_DELAY] passed since the accepted press, and keeps
    every bit that was set; [lastClickTime] is kept.  The byte is not zero
    afterwards, so until the main loop has cleared it a new press is
    ignored. *)
Theorem single_accepted_release (e : Env) (s : Single.ButtonSingle) :
  truthy (digitalRead e 0 (Single.pin s)) = true ->
  truthy (Single.state s) = true ->
  Single.DEBOUNCE_DELAY
  < elapsed (u32 (millis e 0)) (Single.lastChangeTime s) ->
  (forall n : Z, 0 <= n < 8 ->
     Z.testbit (Single.state (Single.button_Handler e s)) n
     = if n =? 0 then false
       else if n =? 2 then true
       else if n =? 3 then
         Z.testbit (Single.state s) 3
         || (Single.LONG_CLICK_DELAY
             <? elapsed (u32 (millis e 0)) (Single.lastClickTime s))
       else Z.testbit (Single.state s) n)
  /\ Single.lastClickTime (Single.button_Handler e s) = Single.lastClickTime s
  /\ Single.lastChangeTime (Single.button_Handler e s) = u32 (millis e 0)
  /\ Single.pin (Single.button_Handler e s) = Single.pin s
  /\ (forall e' : Env,
        truthy (digitalRead e' 0 (Single.pin s)) = false ->
        Single.button_Handler e' (Single.button_Handler e s)
        = Single.button_Handler e s).
Proof.
  intros Hhigh Hnz Hdeb.
  assert (Heq : Single.button_Handler e s
                = Single.mkButtonSingle (Single.pin s)
                    (if Single.LONG_CLICK_DELAY
                        <? elapsed (u32 (millis e 0)) (Single.lastClickTime s)
                     then u8 (Z.lor
                                (u8 (Z.lor
                                       (u8 (Z.land (Single.state s)
                                              (Z.lnot (_BV 0)))) (_BV 2)))
                                (_BV 3))
                     else u8 (Z.lor
                                (u8 (Z.land (Single.state s) (Z.lnot (_BV 0))))
                                (_BV 2)))
                    (u32 (millis e 0)) (Single.lastClickTime s)).
  { unfold Single.button_Handler.
    rewrite single_pending, Hhigh, Hnz. simpl.
    apply Z.ltb_lt in Hdeb. rewrite Hdeb.
    destruct (Single.LONG_CLICK_DELAY
              <? elapsed (u32 (millis e 0)) (Single.lastClickTime s));
      reflexivity. }
  assert (Hbits : forall n : Z, 0 <= n < 8 ->
            Z.testbit (Single.state (Single.button_Handler e s)) n
            = if n =? 0 then false
              else if n =? 2 then true
              else if n =? 3 then
                Z.testbit (Single.state s) 3
                || (Single.LONG_CLICK_DELAY
                    <? elapsed (u32 (millis e 0)) (Single.lastClickTime s))
              else Z.testbit (Single.state s) n).
  { intros n Hn. rewrite Heq. cbn [Single.state].
    assert (Hcases : n = 0 \/ n = 1 \/ n = 2 \/ n = 3 \/ n = 4 \/ n = 5
                     \/ n = 6 \/ n = 7) by lia.
    destruct (Single.LONG_CLICK_DELAY
              <? elapsed (u32 (millis e 0)) (Single.lastClickTime s));
      rewrite ?testbit_set, ?testbit_clear by lia;
      destruct Hcases as [->|[->|[->|[->|[->|[->|[->| ->]]]]]]];
      cbn [Z.eqb Pos.eqb negb];
      rewrite ?andb_true_r, ?andb_false_r, ?orb_false_r, ?orb_true_r;
      reflexivity. }
  split; [exact Hbits|].
  split; [now rewrite Heq|]. split; [now rewrite Heq|].
  split; [now rewrite Heq|].
  intros e' Hlow. apply single_handler_same.
  replace (Single.pin (Single.button_Handler e s)) with (Single.pin s)
    by now rewrite Heq.
  rewrite Hlow. simpl. symmetry.
  unfold truthy. apply negb_true_iff, Z.eqb_neq. intros Hz.
  pose proof (Hbits 2 ltac:(lia)) as H2. rewrite Hz in H2.
  rewrite Z.bits_0 in H2. discriminate.
Qed.

End SingleMore.

Lemma single_handler_ignores_witness :
  negb (truthy (digitalRead (pin2_low_at 5000) 0
                  (Single.pin (Single.mkButtonSingle 2 Single.CLICKED_FLAG 0 0))))
  = truthy (Single.state (Single.mkButtonSingle 2 Single.CLICKED_FLAG 0 0))
  /\ Single.button_Handler (pin2_low_at 5000)
       (Single.mkButtonSingle 2 Single.CLICKED_FLAG 0 0)
     = Single.mkButtonSingle 2 Single.CLICKED_FLAG 0 0.
Proof.
  split; [reflexivity|].
  exact (single_handler_ignores (pin2_low_at 5000)
           (Single.mkButtonSingle 2 Single.CLICKED_FLAG 0 0) eq_refl).
Defined.

Lemma single_accepted_press_witness :
  Single.DEBOUNCE_DELAY
  < elapsed (u32 (millis (pin2_low_at 5000) 0))
      (Single.lastChangeTime (Single.mkButtonSingle 2 0 0 0))
  /\ Single.button_Handler (pin2_low_at 5000) (Single.mkButtonSingle 2 0 0 0)
     = Single.mkButtonSingle 2 19 5000 5000.
Proof.
  assert (H : Single.DEBOUNCE_DELAY
              < elapsed (u32 (millis (pin2_low_at 5000) 0))
                  (Single.lastChangeTime (Single.mkButtonSingle 2 0 0 0)))
    by (vm_compute; reflexivity).
  split; [exact H|].
  exact (single_accepted_press (pin2_low_at 5000)
           (Single.mkButtonSingle 2 0 0 0) eq_refl eq_refl H).
Defined.

Lemma single_accepted_release_witness :
  Single.DEBOUNCE_DELAY
  < elapsed (u32 (millis (idle_at 5000) 0))
      (Single.lastChangeTime (Single.mkButtonSingle 2 3 4000 4000))
  /\ Single.lastClickTime
       (Single.button_Handler (idle_at 5000)
          (Single.mkButtonSingle 2 3 4000 4000))
     = 4000.
Proof.
  assert (H : Single.DEBOUNCE_DELAY
              < elapsed (u32 (millis (idle_at 5000) 0))
                  (Single.lastChangeTime (Single.mkButtonSingle 2 3 4000 4000)))
    by (vm_compute; reflexivity).
  split; [exact H|].
  exact (proj1 (proj2 (single_accepted_release (idle_at 5000)
                         (Single.mkButtonSingle 2 3 4000 4000)
                         eq_refl eq_refl H))).
Defined.

Section SingleLifecycle.
Context `{P : Platform}.

(** [ButtonSingle::begin] stores the pin, seeds the byte from the level it
    samples, so that [down] answers whether the input read [LOW], and
    stores the clock reading in both times.  A handler run that reads the
    same level changes nothing.  The interrupt of the pin is attached if
    the core binds it, and [stop] detaches it and leaves the object as it
    is.  With the button held down during [begin] the take accessors
    answer true although no event happened. *)
Theorem single_begin_seeds (e : Env) (buttonPin : Z) (d : Single.Device) :
  Single.pin (Single.button (Single.begin e buttonPin d)) = buttonPin
  /\ Single.down (Single.button (Single.begin e buttonPin d))
     = Single.polledDown (digitalRead e 0 buttonPin)
  /\ fst (Single.clicked (Single.button (Single.begin e buttonPin d)))
     = Single.polledDown (digitalRead e 0 buttonPin)
  /\ Single.lastChangeTime (Single.button (Single.begin e buttonPin d))
     = u32 (millis e 0)
  /\ Single.lastClickTime (Single.button (Single.begin e buttonPin d))
     = u32 (millis e 0)
  /\ (forall e' : Env,
        Single.polledDown (digitalRead e' 0 buttonPin)
        = Single.polledDown (digitalRead e 0 buttonPin) ->
        Single.button_Handler e' (Single.button (Single.begin e buttonPin d))
        = Single.button (Single.begin e buttonPin d))
  /\ (binds (digitalPinToInterrupt buttonPin) = true ->
      digitalPinToInterrupt buttonPin ∈ Single.irqs (Single.begin e buttonPin d))
  /\ (digitalPinToInterrupt buttonPin
      ∉ Single.irqs (Single.stop (Single.begin e buttonPin d)))
  /\ Single.button (Single.stop (Single.begin e buttonPin d))
     = Single.button (Single.begin e buttonPin d).
Proof.
  assert (Hst : truthy (Single.state (Single.button (Single.begin e buttonPin d)))
                = Single.polledDown (digitalRead e 0 buttonPin)).
  { unfold Single.begin, Single.polledDown, truthy, LOW. simpl.
    now destruct (digitalRead e 0 buttonPin =? 0). }
  split; [reflexivity|].
  split; [unfold Single.down, Single.PRESSED_FLAG;
          now rewrite logical_and_BV by lia|].
  split; [unfold Single.clicked, Single.CLICKED_FLAG; simpl fst;
          now rewrite logical_and_BV by lia|].
  split; [reflexivity|]. split; [reflexivity|].
  split; [|split; [|split]].
  - intros e' Hsame. apply single_handler_same. rewrite Hst, <- Hsame.
    unfold Single.polledDown, truthy, LOW. simpl. now rewrite negb_involutive.
  - intros Hb. unfold Single.begin. simpl. rewrite Hb. now left.
  - unfold Single.stop. simpl. intros Hin.
    apply list_elem_of_filter in Hin. tauto.
  - reflexivity.
Qed.

End SingleLifecycle.

(** * The loops of the old class *)
Section Foreach.
Context {A : Type}.

Lemma read_write_alter_gen (g : A -> A) (i : nat) (l : list A) :
  match l !! i with
  | Some x => <[i := g x]> l
  | None => l
  end = alter g i l.
Proof.
  revert i. induction l as [|x l IH]; intros [|i]; simpl; try reflexivity.
  change (list_alter g i l) with (alter g i l).
  rewrite <- (IH i). now destruct (l !! i).
Qed.

Lemma foreach_length (f : nat -> A -> A) (n : nat) :
  forall (i : nat) (l : list A), length (foreach f i n l) = length l.
Proof.
  induction n as [|n IH]; intros i l; simpl; [reflexivity|].
  rewrite IH. apply length_alter.
Qed.

Lemma foreach_lookup (f : nat -> A -> A) (n : nat) :
  forall (i : nat) (l : list A) (j : nat),
    foreach f i n l !! j =
    if bool_decide (i <= j < i + n)%nat then f j <$> l !! j else l !! j.
Proof.
  induction n as [|n IH]; intros i l j; simpl.
  - rewrite bool_decide_eq_false_2 by lia. reflexivity.
  - rewrite IH. destruct (decide (j = i)) as [->|Hne].
    + rewrite bool_decide_eq_false_2 by lia.
      rewrite bool_decide_eq_true_2 by lia.
      apply list_lookup_alter_eq.
    + rewrite list_lookup_alter_ne by congruence.
      destruct (decide (S i <= j < S i + n)%nat).
      * rewrite !bool_decide_eq_true_2 by lia. reflexivity.
      * rewrite !bool_decide_eq_false_2 by lia. reflexivity.
Qed.

End Foreach.

Section OldLoops.

Lemma old_clear_loop_foreach (n : nat) :
  forall (i : nat) (bs : list Old.Button),
    Old.clearAllChangeFlags_loop i n bs
    = foreach (fun _ b => Old.set_changeFlag b false) i n bs.
Proof.
  induction n as [|n IH]; intros i bs; simpl; [reflexivity|].
  rewrite (read_write_alter_gen (fun b => Old.set_changeFlag b false)).
  apply IH.
Qed.

Lemma old_isr_loop_foreach (e : Env) (n : nat) :
  forall (i : nat) (bs : list Old.Button),
    Old.button_ISR_loop e i n bs
    = foreach
        (fun j b =>
           Old.update (u32 (millis e (2 * j)%nat))
             (u32 (millis e (2 * j + 1)%nat))
             (negb (truthy (digitalRead e j (Old.buttonPin b)))) b)
        i n bs.
Proof.
  induction n as [|n IH]; intros i bs; [reflexivity|].
  cbn [Old.button_ISR_loop foreach].
  rewrite (read_write_alter_gen
             (fun b =>
                Old.update (u32 (millis e (2 * i)%nat))
                  (u32 (millis e (2 * i + 1)%nat))
                  (negb (truthy (digitalRead e i (Old.buttonPin b)))) b)).
  apply IH.
Qed.

Lemma old_begin_init_foreach (e : Env) (n : nat) :
  forall (i : nat) (bs : list Old.Button),
    Old.begin_init e i n bs
    = foreach
        (fun j b =>
           Old.mkButton (Old.buttonPin b)
             (negb (truthy (digitalRead e j (Old.buttonPin b))))
             false false (u32 (millis e j)))
        i n bs.
Proof.
  induction n as [|n IH]; intros i bs; [reflexivity|].
  cbn [Old.begin_init foreach].
  rewrite (read_write_alter_gen
             (fun b =>
                Old.mkButton (Old.buttonPin b)
                  (negb (truthy (digitalRead e i (Old.buttonPin b))))
                  false false (u32 (millis e i)))).
  apply IH.
Qed.

Lemma old_begin_pins_spec (pins : list Z) (n : nat) :
  forall (i : nat) (s : Old.Buttons),
    (i + n <= length pins)%nat ->
    exists s' : Old.Buttons,
      Old.begin_pins pins i n s = Some s'
      /\ Old._buttonStatus s' =
         foreach (fun j b => Old.set_buttonPin b (default 0 (pins !! j))) i n
           (Old._buttonStatus s)
      /\ Old._begun s' = Old._begun s
      /\ Old.irqs s' = Old.irqs s.
Proof.
  induction n as [|n IH]; intros i s Hle.
  - exists s. repeat split.
  - destruct (lookup_lt_is_Some_2 pins i ltac:(lia)) as [p Hp].
    cbn [Old.begin_pins]. rewrite Hp. cbn [mbind option_bind].
    destruct (IH (S i)
                (Old.set_pullups
                   (Old.set_status s
                      match Old._buttonStatus s !! i with
                      | Some b => <[i := Old.set_buttonPin b p]> (Old._buttonStatus s)
                      | None => Old._buttonStatus s
                      end) (p :: Old.pullups s)) ltac:(lia))
      as (s' & Hs' & Hbs & Hbg & Hirq).
    exists s'. rewrite Hs'. repeat split; try assumption.
    rewrite Hbs. cbn [foreach]. simpl Old._buttonStatus.
    rewrite (read_write_alter_gen (fun b => Old.set_buttonPin b p)).
    rewrite Hp. reflexivity.
Qed.

Lemma old_begin_attach_spec `{P : Platform} (pins : list Z) (n : nat) :
  forall (i : nat) (s : Old.Buttons),
    (i + n <= length pins)%nat ->
    exists s' : Old.Buttons,
      Old.begin_attach pins i n s = Some s'
      /\ Old._buttonStatus s' = Old._buttonStatus s
      /\ Old._begun s' = Old._begun s.
Proof.
  induction n as [|n IH]; intros i s Hle.
  - exists s. repeat split.
  - destruct (lookup_lt_is_Some_2 pins i ltac:(lia)) as [p Hp].
    cbn [Old.begin_attach]. rewrite Hp. cbn [mbind option_bind].
    destruct (IH (S i)
                (Old.set_irqs s
                   (if binds (digitalPinToInterrupt p)
                    then digitalPinToInterrupt p :: Old.irqs s
                    else Old.irqs s)) ltac:(lia))
      as (s' & Hs' & Hbs & Hbg).
    exists s'. rewrite Hs'. repeat split; assumption.
Qed.

Lemma old_stop_loop_frame `{P : Platform} (n : nat) :
  forall (i : nat) (s : Old.Buttons),
    Old._buttonStatus (Old.stop_loop i n s) = Old._buttonStatus s
    /\ Old._begun (Old.stop_loop i n s) = Old._begun s.
Proof.
  induction n as [|n IH]; intros i s; [now split|].
  cbn [Old.stop_loop].
  destruct (IH (S i)
              match Old._buttonStatus s !! i with
              | Some b =>
                  Old.set_irqs s
                    (filter (λ x, x ≠ digitalPinToInterrupt (Old.buttonPin b))
                       (Old.irqs s))
              | None => s
              end) as [H1 H2].
  rewrite H1, H2. now destruct (Old._buttonStatus s !! i).
Qed.

End OldLoops.

(** * The accessors of the old class *)
Section OldAccessors.

Lemma old_changed_clear_eq (buttonId : nat) (c : bool) (s : Old.Buttons)
    (b : Old.Button) :
  Old._buttonStatus s !! buttonId = Some b ->
  Old.changed_clear buttonId c s
  = Some (Old.changeFlag b,
          Old.set_status s
            (<[buttonId := Old.set_changeFlag b (Old.changeFlag b && negb c)]>
               (Old._buttonStatus s)))
  /\ Old._buttonStatus
       (Old.set_status s
          (<[buttonId := Old.set_changeFlag b (Old.changeFlag b && negb c)]>
             (Old._buttonStatus s))) !! buttonId
     = Some (Old.set_changeFlag b (Old.changeFlag b && negb c)).
Proof.
  intros Hb. split.
  - unfold Old.changed_clear. rewrite Hb. reflexivity.
  - simpl. apply list_lookup_insert_eq. eapply lookup_lt_Some, Hb.
Qed.

Lemma old_insert_same (buttonId : nat) (s : Old.Buttons) (b : Old.Button) :
  Old._buttonStatus s !! buttonId = Some b ->
  Old.set_status s (<[buttonId := b]> (Old._buttonStatus s)) = s.
Proof.
  intros Hb. unfold Old.set_status. rewrite list_insert_id by assumption.
  now destruct s.
Qed.

(** [changed(buttonId, clearChangeFlag)] of the old class: with
    [clearChangeFlag] it is a read-and-clear (the change flag is returned
    and cleared, so a second call answers false); without, it only reads
    and the class is left exactly as it was. *)
Theorem old_changed_reads_and_clears (buttonId : nat) (s : Old.Buttons)
    (b : Old.Button) :
  Old._buttonStatus s !! buttonId = Some b ->
  Old.changed_clear buttonId false s = Some (Old.changeFlag b, s)
  /\ exists s' : Old.Buttons,
       Old.changed_clear buttonId true s = Some (Old.changeFlag b, s')
       /\ Old.changed_clear buttonId true s' = Some (false, s')
       /\ Old.changed buttonId s' = Some false
       /\ Old.down buttonId s' = Old.down buttonId s
       /\ (forall j : nat, j <> buttonId ->
             Old._buttonStatus s' !! j = Old._buttonStatus s !! j).
Proof.
  intros Hb. split.
  - destruct (old_changed_clear_eq buttonId false s b Hb) as [-> _].
    simpl. rewrite andb_true_r.
    replace (Old.set_changeFlag b (Old.changeFlag b)) with b by now destruct b.
    now rewrite old_insert_same.
  - destruct (old_changed_clear_eq buttonId true s b Hb) as [H1 H2].
    eexists. split; [exact H1|]. simpl negb in *. rewrite andb_false_r in *.
    destruct (old_changed_clear_eq buttonId true _ _ H2) as [H3 _].
    repeat split.
    + rewrite H3. simpl. unfold Old.set_status. simpl.
      now rewrite list_insert_insert_eq.
    + unfold Old.changed. now rewrite H2.
    + unfold Old.down. rewrite H2, Hb. reflexivity.
    + intros j Hj. simpl. apply list_lookup_insert_ne. congruence.
Qed.

(** [clicked(buttonId, clearChangeFlag)] answers "changed and down",
    [released(buttonId, clearChangeFlag)] "changed and up", and both leave
    the same state behind: with [clearChangeFlag] the change flag is
    cleared whatever the answer, so after either call both answer false.
    Polling [clicked(id, true)] on a button that was released consumes the
    release. *)
Theorem old_clicked_released_consume (buttonId : nat) (c : bool)
    (s : Old.Buttons) (b : Old.Button) :
  Old._buttonStatus s !! buttonId = Some b ->
  exists s' : Old.Buttons,
    Old.clicked_clear buttonId c s
    = Some (Old.changeFlag b && Old.currentState b, s')
    /\ Old.released_clear buttonId c s
       = Some (Old.changeFlag b && negb (Old.currentState b), s')
    /\ Old.changed buttonId s' = Some (Old.changeFlag b && negb c)
    /\ Old.down buttonId s' = Some (Old.currentState b)
    /\ (c = false -> s' = s)
    /\ (c = true ->
        forall c' : bool,
          fst <$> Old.clicked_clear buttonId c' s' = Some false
          /\ fst <$> Old.released_clear buttonId c' s' = Some false).
Proof.
  intros Hb.
  destruct (old_changed_clear_eq buttonId c s b Hb) as [H1 H2].
  exists (Old.set_status s
            (<[buttonId := Old.set_changeFlag b (Old.changeFlag b && negb c)]>
               (Old._buttonStatus s))).
  unfold Old.clicked_clear, Old.released_clear. rewrite H1.
  assert (Hdown : Old.down buttonId
                    (Old.set_status s
                       (<[buttonId := Old.set_changeFlag b
                                        (Old.changeFlag b && negb c)]>
                          (Old._buttonStatus s)))
                  = Some (Old.currentState b))
    by (unfold Old.down; now rewrite H2).
  split; [|split; [|split; [|split; [|split]]]].
  - destruct (Old.changeFlag b); [rewrite Hdown|]; reflexivity.
  - destruct (Old.changeFlag b); [rewrite Hdown|]; reflexivity.
  - unfold Old.changed. now rewrite H2.
  - exact Hdown.
  - intros ->. simpl. rewrite andb_true_r.
    replace (Old.set_changeFlag b (Old.changeFlag b)) with b by now destruct b.
    now apply old_insert_same.
  - intros -> c'. simpl negb in *. rewrite andb_false_r in *.
    destruct (old_changed_clear_eq buttonId c' _ _ H2) as [H3 _].
    rewrite H3. split; reflexivity.
Qed.

(** The one-argument [clicked(buttonId)] and [released(buttonId)] both
    answer the change flag alone, whatever the level of the button: after a
    release [clicked] answers true as well.  What depends on the level is
    the clearing: [clicked] clears the flag only when the button is down,
    [released] only when it is up, and otherwise the class is untouched. *)
Theorem old_one_argument_accessors (buttonId : nat) (s : Old.Buttons)
    (b : Old.Button) :
  Old._buttonStatus s !! buttonId = Some b ->
  Old.clicked buttonId s
  = Some (Old.changeFlag b,
          if Old.changeFlag b && Old.currentState b
          then Old.set_status s
                 (<[buttonId := Old.set_changeFlag b false]>
                    (Old._buttonStatus s))
          else s)
  /\ Old.released buttonId s
     = Some (Old.changeFlag b,
             if Old.changeFlag b && negb (Old.currentState b)
             then Old.set_status s
                    (<[buttonId := Old.set_changeFlag b false]>
                       (Old._buttonStatus s))
             else s).
Proof.
  intros Hb.
  unfold Old.clicked, Old.released, Old.changed, Old.down,
    Old.clearChangedFlag.
  rewrite Hb. simpl.
  destruct (Old.changeFlag b), (Old.currentState b); split; reflexivity.
Qed.

(** [longClicked(buttonId, downTime, clear)] answers true only when the
    button is down, has been so for more than [downTime] since the change
    recorded last, and the long-click flag is set.  It never touches the
    change flag or the level.  Once it has answered true with [clear], it
    answers false on every later call, whatever the clock, until the
    interrupt routine sets the flag again. *)
Theorem old_longClicked (buttonId : nat) (downTime : Z) (c : bool) (e : Env)
    (s : Old.Buttons) (b : Old.Button) :
  Old._buttonStatus s !! buttonId = Some b ->
  exists s' : Old.Buttons,
    Old.longClicked buttonId downTime c e s
    = Some (Old.currentState b
            && (Old.u16 downTime
                <? elapsed (u32 (millis e 0)) (Old.lastChangeTime b))
            && Old.longClickFlag b, s')
    /\ Old.changed buttonId s' = Old.changed buttonId s
    /\ Old.down buttonId s' = Old.down buttonId s
    /\ (fst <$> Old.longClicked buttonId downTime c e s = Some true ->
        c = true ->
        forall (downTime' : Z) (c' : bool) (e' : Env),
          fst <$> Old.longClicked buttonId downTime' c' e' s' = Some false).
Proof.
  intros Hb.
  assert (Hlen : (buttonId < length (Old._buttonStatus s))%nat)
    by (eapply lookup_lt_Some, Hb).
  unfold Old.longClicked, Old.delayedDown, Old.down, Old.changed.
  rewrite Hb. simpl.
  destruct (Old.currentState b) eqn:Hcur; simpl.
  - destruct (Old.u16 downTime
              <? elapsed (u32 (millis e 0)) (Old.lastChangeTime b)) eqn:Hd;
      simpl.
    + eexists. split; [reflexivity|]. simpl.
      rewrite list_lookup_insert_eq by assumption. simpl. rewrite Hcur.
      repeat split.
      intros Hr -> downTime' c' e'. simpl.
      destruct (Old.u16 downTime'
                <? elapsed (u32 (millis e' 0)) (Old.lastChangeTime b));
        simpl; [|reflexivity].
      now rewrite andb_false_r.
    + exists s. rewrite Hb. simpl. rewrite Hcur. repeat split.
      all: intros Hr; discriminate.
  - exists s. rewrite Hb. simpl. rewrite Hcur. repeat split.
    all: intros Hr; discriminate.
Qed.

End OldAccessors.

Lemma old_changed_reads_and_clears_witness :
  Old._buttonStatus old_stale !! 1%nat
  = Some (Old.mkButton 3 false true true 200)
  /\ Old.changed_clear 1 false old_stale = Some (true, old_stale).
Proof.
  split; [reflexivity|].
  exact (proj1 (old_changed_reads_and_clears 1 old_stale
                  (Old.mkButton 3 false true true 200) eq_refl)).
Defined.

Lemma old_clicked_released_consume_witness :
  Old._buttonStatus old_stale !! 1%nat
  = Some (Old.mkButton 3 false true true 200)
  /\ exists s' : Old.Buttons,
       Old.clicked_clear 1 true old_stale = Some (false, s')
       /\ fst <$> Old.released_clear 1 true s' = Some false.
Proof.
  split; [reflexivity|].
  destruct (old_clicked_released_consume 1 true old_stale
              (Old.mkButton 3 false true true 200) eq_refl)
    as (s' & H1 & _ & _ & _ & _ & H6).
  exists s'. split; [exact H1|]. exact (proj2 (H6 eq_refl true)).
Defined.

Lemma old_one_argument_accessors_witness :
  Old._buttonStatus old_stale !! 1%nat
  = Some (Old.mkButton 3 false true true 200)
  /\ Old.clicked 1 old_stale = Some (true, old_stale).
Proof.
  split; [reflexivity|].
  exact (proj1 (old_one_argument_accessors 1 old_stale
                  (Old.mkButton 3 false true true 200) eq_refl)).
Defined.

Lemma old_longClicked_witness :
  Old._buttonStatus old_stale !! 0%nat
  = Some (Old.mkButton 2 true true true 100)
  /\ exists s' : Old.Buttons,
       Old.longClicked 0 1000 true (idle_at 5000) old_stale = Some (true, s')
       /\ fst <$> Old.longClicked 0 1000 true (idle_at 9000) s' = Some false.
Proof.
  split; [reflexivity|].
  destruct (old_longClicked 0 1000 true (idle_at 5000) old_stale
              (Old.mkButton 2 true true true 100) eq_refl)
    as (s' & H1 & _ & _ & H4).
  exists s'. split; [exact H1|].
  apply H4; [|reflexivity]. rewrite H1. reflexivity.
Defined.

(** * The old class: clearing, lifecycle and debounce *)
Section OldClass.
Context `{P : Platform}.

(** [clearAllChangeFlags] clears the change flag of every entry and
    nothing else: afterwards [changed], [clicked] and [released] answer
    false for every button and leave the class as it is, while [down]
    answers as before and the long-click flags are kept. *)
Theorem old_clearAllChangeFlags (N : nat) (s : Old.Buttons) (i : nat)
    (b : Old.Button) :
  (i < N)%nat ->
  Old._buttonStatus s !! i = Some b ->
  Old._buttonStatus (Old.clearAllChangeFlags N s) !! i
  = Some (Old.set_changeFlag b false)
  /\ Old.changed i (Old.clearAllChangeFlags N s) = Some false
  /\ Old.clicked i (Old.clearAllChangeFlags N s)
     = Some (false, Old.clearAllChangeFlags N s)
  /\ Old.released i (Old.clearAllChangeFlags N s)
     = Some (false, Old.clearAllChangeFlags N s)
  /\ Old.down i (Old.clearAllChangeFlags N s) = Old.down i s
  /\ Old._begun (Old.clearAllChangeFlags N s) = Old._begun s
  /\ length (Old._buttonStatus (Old.clearAllChangeFlags N s))
     = length (Old._buttonStatus s).
Proof.
  intros Hi Hb.
  assert (Hl : Old._buttonStatus (Old.clearAllChangeFlags N s) !! i
               = Some (Old.set_changeFlag b false)).
  { unfold Old.clearAllChangeFlags. simpl.
    rewrite old_clear_loop_foreach, foreach_lookup.
    rewrite bool_decide_eq_true_2 by lia. now rewrite Hb. }
  split; [exact Hl|].
  split; [unfold Old.changed; now rewrite Hl|].
  split; [unfold Old.clicked, Old.changed; now rewrite Hl|].
  split; [unfold Old.released, Old.changed; now rewrite Hl|].
  split; [unfold Old.down; now rewrite Hl, Hb|].
  split; [reflexivity|].
  unfold Old.clearAllChangeFlags. simpl.
  now rewrite old_clear_loop_foreach, foreach_length.
Qed.

Lemma old_begin_buttons (N : nat) (e : Env) (pins : list Z) (s : Old.Buttons) :
  (N <= length pins)%nat ->
  exists s' : Old.Buttons,
    Old.begin N e (Some pins) s = Some (true, s')
    /\ Old._begun s' = true
    /\ Old._buttonStatus s' =
       foreach
         (fun j b =>
            Old.mkButton (Old.buttonPin b)
              (negb (truthy (digitalRead e j (Old.buttonPin b))))
              false false (u32 (millis e j))) 0 N
         (foreach (fun j b => Old.set_buttonPin b (default 0 (pins !! j))) 0 N
            (Old._buttonStatus s)).
Proof.
  intros Hle. unfold Old.begin.
  set (s0 := if Old._begun s then Old.stop N s else s).
  assert (Hs0 : Old._buttonStatus s0 = Old._buttonStatus s).
  { subst s0. destruct (Old._begun s) eqn:Hb; [|reflexivity].
    unfold Old.stop. rewrite Hb. simpl. apply old_stop_loop_frame. }
  destruct (old_begin_pins_spec pins N 0 s0 ltac:(lia)) as (s1 & H1 & Hbs1 & _).
  destruct (old_begin_attach_spec pins N 0 s1 ltac:(lia)) as (s2 & H2 & Hbs2 & _).
  rewrite H1. simpl. rewrite H2. simpl.
  eexists. split; [reflexivity|]. split; [reflexivity|]. simpl.
  now rewrite old_begin_init_foreach, Hbs2, Hbs1, Hs0.
Qed.

(** [begin] of the old class, given at least [NumberOfButtons] pins,
    succeeds from any state.  Every entry then holds its pin, the level
    sampled from it (down exactly when the pin read [LOW]), both flags
    cleared and the clock read for it; [numberOfButtons] answers
    [NumberOfButtons], and 0 again after [stop].  A run of the interrupt
    routine that samples the same levels changes nothing. *)
Theorem old_begin_seeds (N : nat) (e : Env) (pins : list Z) (s : Old.Buttons) :
  length (Old._buttonStatus s) = N ->
  (N <= length pins)%nat ->
  exists s' : Old.Buttons,
    Old.begin N e (Some pins) s = Some (true, s')
    /\ Old.numberOfButtons N s' = N
    /\ Old.numberOfButtons N (Old.stop N s') = 0%nat
    /\ (forall (i : nat) (p : Z),
          (i < N)%nat -> pins !! i = Some p ->
          Old._buttonStatus s' !! i
          = Some (Old.mkButton p (Old.polledDown (digitalRead e i p))
                    false false (u32 (millis e i))))
    /\ (forall e' : Env,
          (forall (i : nat) (p : Z),
              Old.polledDown (digitalRead e' i p)
              = Old.polledDown (digitalRead e i p)) ->
          Old.button_ISR_class N e' s' = s').
Proof.
  intros Hlen Hle.
  destruct (old_begin_buttons N e pins s Hle) as (s' & Hbegin & Hbegun & Hbs).
  assert (Hpd : forall v, negb (truthy v) = Old.polledDown v).
  { intros v. unfold truthy, Old.polledDown, LOW. apply negb_involutive. }
  assert (Hentry : forall (i : nat) (p : Z),
            (i < N)%nat -> pins !! i = Some p ->
            Old._buttonStatus s' !! i
            = Some (Old.mkButton p (Old.polledDown (digitalRead e i p))
                      false false (u32 (millis e i)))).
  { intros i p Hi Hp.
    destruct (lookup_lt_is_Some_2 (Old._buttonStatus s) i ltac:(lia)) as [b Hb].
    rewrite Hbs, !foreach_lookup, !bool_decide_eq_true_2 by lia.
    rewrite Hb, Hp. simpl. now rewrite Hpd. }
  exists s'. split; [exact Hbegin|].
  split; [unfold Old.numberOfButtons; now rewrite Hbegun|].
  split; [unfold Old.numberOfButtons, Old.stop; now rewrite Hbegun|].
  split; [exact Hentry|].
  intros e' Hsame. unfold Old.button_ISR_class, Old.button_ISR.
  rewrite old_isr_loop_foreach.
  replace (foreach _ 0 N (Old._buttonStatus s')) with (Old._buttonStatus s');
    [now destruct s'|].
  apply list_eq. intros j. rewrite foreach_lookup.
  destruct (decide (j < N)%nat) as [Hj|Hj].
  - rewrite bool_decide_eq_true_2 by lia.
    destruct (lookup_lt_is_Some_2 pins j ltac:(lia)) as [p Hp].
    rewrite (Hentry j p Hj Hp). simpl.
    unfold Old.update. simpl. rewrite Hpd, Hsame, eqb_reflx. reflexivity.
  - rewrite bool_decide_eq_false_2 by lia. reflexivity.
Qed.

End OldClass.

Section OldDebounce.

(** Away from the wrap of the clock the old debounce test decides as the
    subtraction of the newer classes does: when the stored time plus the
    delay still fits in 32 bits and the clock has not wrapped since, the
    old routine accepts a differing sample exactly when more than
    [DEBOUNCE_DELAY] passed.  It then stores the sample as the level and
    sets both flags; otherwise it only refreshes [lastChangeTime]. *)
Theorem old_update_without_wrap (m1 m2 : Z) (readState : bool) (b : Old.Button) :
  0 <= Old.lastChangeTime b ->
  Old.lastChangeTime b + Old.DEBOUNCE_DELAY < 2 ^ 32 ->
  Old.lastChangeTime b <= m1 < 2 ^ 32 ->
  Old.update m1 m2 readState b
  = if eqb readState (Old.currentState b) then b
    else if Old.DEBOUNCE_DELAY <? elapsed m1 (Old.lastChangeTime b)
         then Old.mkButton (Old.buttonPin b) readState true true m2
         else Old.mkButton (Old.buttonPin b) (Old.currentState b)
                (Old.changeFlag b) (Old.longClickFlag b) m2.
Proof.
  intros H0 Hfit Hm. unfold Old.update.
  destruct (eqb readState (Old.currentState b)); simpl; [reflexivity|].
  replace (u32 (Old.lastChangeTime b + Old.DEBOUNCE_DELAY))
    with (Old.lastChangeTime b + Old.DEBOUNCE_DELAY)
    by (symmetry; apply u32_small; unfold Old.DEBOUNCE_DELAY in *; lia).
  replace (elapsed m1 (Old.lastChangeTime b)) with (m1 - Old.lastChangeTime b)
    by (symmetry; apply u32_small; lia).
  destruct (Z.ltb_spec (Old.lastChangeTime b + Old.DEBOUNCE_DELAY) m1);
    destruct (Z.ltb_spec Old.DEBOUNCE_DELAY (m1 - Old.lastChangeTime b));
    try lia; reflexivity.
Qed.

End OldDebounce.

Lemma old_clearAllChangeFlags_witness :
  (1 < 2)%nat
  /\ Old._buttonStatus old_stale !! 1%nat
     = Some (Old.mkButton 3 false true true 200)
  /\ Old.changed 1 (Old.clearAllChangeFlags 2 old_stale) = Some false.
Proof.
  split; [lia|]. split; [reflexivity|].
  exact (proj1 (proj2 (old_clearAllChangeFlags 2 old_stale 1
                         (Old.mkButton 3 false true true 200)
                         ltac:(lia) eq_refl))).
Defined.

Lemma old_begin_seeds_witness :
  length (Old._buttonStatus old_stale) = 2%nat
  /\ (2 <= length [2; 3])%nat
  /\ exists s' : Old.Buttons,
       @Old.begin uno 2 (pin2_low_at 5000) (Some [2; 3]) old_stale
       = Some (true, s')
       /\ Old.numberOfButtons 2 s' = 2%nat.
Proof.
  split; [reflexivity|]. split; [simpl; lia|].
  destruct (@old_begin_seeds uno 2 (pin2_low_at 5000) [2; 3] old_stale
              eq_refl ltac:(simpl; lia))
    as (s' & H1 & H2 & _).
  exists s'. split; [exact H1 | exact H2].
Defined.

Lemma old_update_without_wrap_witness :
  0 <= Old.lastChangeTime (Old.mkButton 2 false false false 1000)
  /\ Old.update 1060 1060 true (Old.mkButton 2 false false false 1000)
     = Old.mkButton 2 true true true 1060.
Proof.
  split; [simpl; lia|].
  exact (old_update_without_wrap 1060 1060 true
           (Old.mkButton 2 false false false 1000)
           ltac:(simpl; lia) ltac:(vm_compute; reflexivity)
           ltac:(simpl; lia)).
Defined.

Lemma update_across_wrap_witness :
  4294967286 <= 4294967336 < 4294967286 + 2 ^ 32
  /\ @Template.accepts default_delays (u32 4294967336) true
       (Template.mkButton 2 0 (u32 4294967286) (u32 4294967286))
     = true.
Proof.
  assert (H : 4294967286 <= 4294967336 < 4294967286 + 2 ^ 32) by lia.
  split; [exact H|].
  exact (proj1 (@update_across_wrap default_delays 4294967286 4294967286
                  4294967336 true 2 0 H H)).
Defined.
